(** * Reconciling a zone's DNS records with its Page Rules

    A shallow embedding of [src/commands/dns.js] (the [dns <domain>] command
    of web-redirects-cli) together with the helpers it imports from
    [lib/shared.js].

    The command fetches the live DNS records and the Page Rules of a zone,
    derives the DNS records the Page Rules need, colours every live record
    as properly proxied, conflicting or neither, and then asks the user how
    to repair the zone.  The handler is modelled as a finite interaction
    tree: console output and record mutations are emitted calls, the two
    [inquirer] prompts are branching nodes. *)

From Stdlib Require Import List String Ascii ZArith Bool Arith Lia Permutation.
Import ListNotations.

Set Implicit Arguments.

(* ===================================================================== *)
(** ** Data model *)
(* ===================================================================== *)

(** A DNS record as the provider returns it and as the handler reads it
    ([line.type], [line.name], [line.content], [line.ttl], [line.proxied]).
    A [ttl] of 1 is the provider's "automatic". *)
Module DNSRecord.

Record t : Type := make
  { type : string;
    name : string;
    content : string;
    ttl : Z;
    proxied : bool }.

(** Two records occupy the same slot when type and name agree. *)
Definition same_slot (r l : t) : bool :=
  (type r =? type l)%string && (name r =? name l)%string.

(** The attributes that have to agree for a record to do its job. *)
Definition same_value (r l : t) : bool :=
  (content r =? content l)%string && Bool.eqb (proxied r) (proxied l).

(** The slot of a record, as a key. *)
Definition slot (r : t) : string * string := (type r, name r).

Definition with_ttl (n : Z) (r : t) : t :=
  make (type r) (name r) (content r) n (proxied r).

End DNSRecord.

(** Modelled from the spec: the redirects are only handled by
    [lib/shared.js], which is not among the sources.  The spec (3,
    RedirectDescription): a redirect has a [from] pattern, a [to] target and
    a [type], forwarding or rewrite. *)
Module Redirect.

Inductive kind : Type := forwarding | rewrite.

Record t : Type := make
  { from : string;
    to : string;
    type : kind }.

End Redirect.

(** Modelled from the spec: the handler passes Page Rules on unopened.  The
    spec (3, PageRule): a target pattern (hostname and optional path
    pattern), an ordered list of actions, each an id and a value, a priority
    and a status.  The value of a ["forwarding_url"] action is a URL and a
    status code. *)
Module PageRule.

Inductive value : Type :=
| forwarding_value (url : string) (status_code : Z)
| opaque_value (raw : string).

Record action : Type := make_action
  { id : string;
    action_value : value }.

Inductive rule_status : Type := active | disabled.

Record t : Type := make
  { targetPattern : string;
    actions : list action;
    priority : Z;
    status : rule_status }.

End PageRule.

(* ===================================================================== *)
(** ** The helpers of [lib/shared.js] *)
(* ===================================================================== *)

Module Shared.

Import DNSRecord.

(** Modelled from the spec: [hasDNSRecord] is imported from [lib/shared.js],
    which is not among the sources.  The spec (4.3, [hasMatchingRecord]):
    true iff the required set contains a record with the same (type, name)
    and the same content and proxied flag; the TTL is not compared. *)
Definition hasDNSRecord (dns_records : list DNSRecord.t) (record : DNSRecord.t) : bool :=
  existsb (fun r => same_slot r record && same_value r record) dns_records.

(** Modelled from the spec: [hasConflictingDNSRecord] is imported from
    [lib/shared.js].  The spec (4.3, [hasConflictingRecord]): true iff the
    required set contains a record with the same (type, name) but a
    different content or proxied flag. *)
Definition hasConflictingDNSRecord (dns_records : list DNSRecord.t) (record : DNSRecord.t) : bool :=
  existsb (fun r => same_slot r record && negb (same_value r record)) dns_records.

(** *** Deriving the required records *)

Section Deriver.

(** Modelled from the spec: [requiredDNSRecordFor] (4.1) turns one Page Rule
    into the DNS record its target hostname needs.  The spec fixes neither
    the record type nor its content, so the function is a parameter of the
    deriver. *)
Variable requiredDNSRecordFor : PageRule.t -> DNSRecord.t.

(** Modelled from the spec: one step of the deduplication of 4.2; a record
    is kept unless its slot is already taken by an earlier one. *)
Definition keep_first (kept : list DNSRecord.t) (r : DNSRecord.t) : list DNSRecord.t :=
  if existsb (fun k => same_slot k r) kept then kept else kept ++ [r].

(** Modelled from the spec: [buildRequiredDNSRecordsForPagerules] is
    imported from [lib/shared.js].  The spec (4.2, [buildRequiredRecords]):
    map every Page Rule through [requiredDNSRecordFor], then deduplicate by
    (type, name); the first occurrence in rule order wins. *)
Definition buildRequiredDNSRecordsForPagerules (pagerules : list PageRule.t) : list DNSRecord.t :=
  fold_left keep_first (map requiredDNSRecordFor pagerules) [].

End Deriver.

(** *** Converting between redirects and Page Rules *)

(** Modelled from the spec: the [ConversionError] of 4.1 and 7, returned
    and not thrown. *)
Inductive ConversionError : Type :=
| invalid_from (s : string)
| invalid_to (s : string).

(** Modelled from the spec: a valid URL path fragment (4.1); the path
    pattern of a target pattern is optional (3), and a path starts with a
    slash. *)
Definition valid_path_fragment (s : string) : bool :=
  match s with
  | EmptyString => true
  | String c _ => (c =? "/")%char
  end.

(** Modelled from the spec: a valid target (4.1) says where to go. *)
Definition valid_target (s : string) : bool :=
  match s with
  | EmptyString => false
  | String _ _ => true
  end.

(** A hostname pattern holds no slash. *)
Fixpoint has_slash (s : string) : bool :=
  match s with
  | EmptyString => false
  | String c rest => (c =? "/")%char || has_slash rest
  end.

(** Modelled from the spec: a target pattern is a hostname and an optional
    path pattern (3); the path is everything from the first slash on. *)
Fixpoint path_of (pattern : string) : string :=
  match pattern with
  | EmptyString => EmptyString
  | String c rest => if (c =? "/")%char then pattern else path_of rest
  end.

(** Modelled from the spec: the 301/302 status code derived from the
    redirect type (4.1), the two types in the order the spec lists them. *)
Definition status_code_of (k : Redirect.kind) : Z :=
  match k with
  | Redirect.forwarding => 301
  | Redirect.rewrite => 302
  end.

(** Modelled from the spec: the inverse of [status_code_of]; any other
    code is not recognised. *)
Definition kind_of_status_code (code : Z) : option Redirect.kind :=
  if (code =? 301)%Z then Some Redirect.forwarding
  else if (code =? 302)%Z then Some Redirect.rewrite
  else None.

(** Modelled from the spec: [convertRedirectToPageRule] is imported from
    [lib/shared.js].  The spec (4.1, [pageRuleFromRedirect]): the target
    pattern is the domain pattern combined with [redirect.from]; the actions
    encode [redirect.to] and [redirect.type] as a ["forwarding_url"] action
    with a 301/302 status code; a [from] or [to] that is not a valid
    fragment is a [ConversionError].  The rule is built for submission:
    it is active, with priority 1. *)
Definition convertRedirectToPageRule (redirect : Redirect.t) (default_base : string)
  : ConversionError + PageRule.t :=
  if negb (valid_path_fragment (Redirect.from redirect)) then
    inl (invalid_from (Redirect.from redirect))
  else if negb (valid_target (Redirect.to redirect)) then
    inl (invalid_to (Redirect.to redirect))
  else
    inr (PageRule.make
           (default_base ++ Redirect.from redirect)%string
           [PageRule.make_action "forwarding_url"
              (PageRule.forwarding_value (Redirect.to redirect)
                 (status_code_of (Redirect.type redirect)))]
           1 PageRule.active).

(** Modelled from the spec: an entry of the converted list (4.1), a
    redirect or the marker for an action the converter does not recognise. *)
Inductive entry : Type :=
| redirect_entry (r : Redirect.t)
| unsupported (action_id : string).

(** Modelled from the spec: how one action of a rule is read back (4.1). *)
Definition entry_of_action (pattern : string) (a : PageRule.action) : entry :=
  match PageRule.action_value a with
  | PageRule.forwarding_value url code =>
      if (PageRule.id a =? "forwarding_url")%string then
        match kind_of_status_code code with
        | Some k => redirect_entry (Redirect.make (path_of pattern) url k)
        | None => unsupported (PageRule.id a)
        end
      else unsupported (PageRule.id a)
  | PageRule.opaque_value _ => unsupported (PageRule.id a)
  end.

(** Modelled from the spec: [convertPageRulesToRedirects] is imported from
    [lib/shared.js].  The spec (4.1, [pageRulesToRedirects]): the inverse
    mapping; an action the converter does not recognise is surfaced as an
    "unsupported" marker rather than dropped. *)
Definition convertPageRulesToRedirects (pagerules : list PageRule.t) : list entry :=
  flat_map
    (fun r => map (entry_of_action (PageRule.targetPattern r)) (PageRule.actions r))
    pagerules.

End Shared.

(* ===================================================================== *)
(** ** The handler of [commands/dns.js] *)
(* ===================================================================== *)

Module Dns.

(** The colour a live record is printed in (lines 75, 78 and 80). *)
Inductive colour : Type := green | orange | white.

(** The values of the [whichApproach] list prompt (lines 99 to 101). *)
Inductive approach : Type := required | all | skip.

(** What the handler does to the outside world: console output, the two
    prompts, and the two record mutations of [lib/shared.js]. *)
Inductive call : Type :=
| console_log (text : string)
| error (text : string)
| warn (text : string)
| outputPageRulesAsText (pagerules : list PageRule.t)
| outputDNSRecordsTable (records : list DNSRecord.t)
| table_output (rows : list (colour * DNSRecord.t))
| inquirer_prompt (name : string)
| deleteTheseDNSRecords (zone : string) (records : list DNSRecord.t)
| createTheseDNSRecords (zone : string) (records : list DNSRecord.t).

(** The handler as a finite interaction tree. *)
Inductive io : Type :=
| done
| perform (c : call) (next : io)
| prompt_list (next : approach -> io)
| prompt_confirm (next : bool -> io).

#[local] Notation "c ;; k" := (perform c k) (at level 61, right associativity).

(** What the user answers to the prompts. *)
Record answers : Type :=
  { whichApproach : approach;
    confirmCreateIntent : bool }.

(** Running the tree against a user gives the calls in the order they are
    made. *)
Fixpoint run (p : io) (user : answers) : list call :=
  match p with
  | done => []
  | perform c next => c :: run next user
  | prompt_list next =>
      inquirer_prompt "whichApproach" :: run (next (whichApproach user)) user
  | prompt_confirm next =>
      inquirer_prompt "confirmCreateIntent"
        :: run (next (confirmCreateIntent user)) user
  end.

Definition is_mutation (c : call) : bool :=
  match c with
  | deleteTheseDNSRecords _ _ | createTheseDNSRecords _ _ => true
  | _ => false
  end.

(** The record mutations among the calls of a run. *)
Definition mutations (trace : list call) : list call := filter is_mutation trace.

(** The records a run deletes and the records it creates. *)
Definition deleted (trace : list call) : list DNSRecord.t :=
  flat_map (fun c => match c with deleteTheseDNSRecords _ rs => rs | _ => [] end) trace.

Definition created (trace : list call) : list DNSRecord.t :=
  flat_map (fun c => match c with createTheseDNSRecords _ rs => rs | _ => [] end) trace.

(** The state of the loop over the live records (lines 65 to 82): the two
    arrays and the rows of the table. *)
Record tally : Type :=
  { properly_proxied : list DNSRecord.t;
    conflicts : list DNSRecord.t;
    table : list (colour * DNSRecord.t) }.

Definition is_white (c : colour) : bool :=
  match c with white => true | _ => false end.

(** The live records printed in white: neither array holds them. *)
Definition unrelated (t : tally) : list DNSRecord.t :=
  map snd (filter (fun row => is_white (fst row)) (table t)).

Definition congrats : string := "Congrats! Page Rules should all work as expected.".

Section Handler.

(** [hasDNSRecord] and [hasConflictingDNSRecord] come from [lib/shared.js];
    the handler is modelled for any implementation of them. *)
Variables hasDNSRecord hasConflictingDNSRecord : list DNSRecord.t -> DNSRecord.t -> bool.

(** The body of [dns_records.forEach] (lines 70 to 82). *)
Definition classify_line (required_dns_records : list DNSRecord.t)
    (acc : tally) (line : DNSRecord.t) : tally :=
  if hasDNSRecord required_dns_records line then
    {| properly_proxied := properly_proxied acc ++ [line];
       conflicts := conflicts acc;
       table := table acc ++ [(green, line)] |}
  else if hasConflictingDNSRecord required_dns_records line then
    {| properly_proxied := properly_proxied acc;
       conflicts := conflicts acc ++ [line];
       table := table acc ++ [(orange, line)] |}
  else
    {| properly_proxied := properly_proxied acc;
       conflicts := conflicts acc;
       table := table acc ++ [(white, line)] |}.

(** Lines 65 to 82. *)
Definition classify (required_dns_records dns_records : list DNSRecord.t) : tally :=
  fold_left (classify_line required_dns_records) dns_records
    {| properly_proxied := []; conflicts := []; table := [] |}.

(** The test of line 88. *)
Definition will_not_work (t : tally) : bool :=
  (List.length (properly_proxied t) =? 0) || (0 <? List.length (conflicts t)).

(** The [switch] of lines 104 to 122. *)
Definition remediate (val : string) (dns_records required_dns_records : list DNSRecord.t)
    (t : tally) (choice : approach) : io :=
  match choice with
  | all =>
      deleteTheseDNSRecords val dns_records ;;
      console_log EmptyString ;;
      createTheseDNSRecords val required_dns_records ;;
      done
  | required =>
      deleteTheseDNSRecords val (conflicts t) ;;
      console_log EmptyString ;;
      createTheseDNSRecords val required_dns_records ;;
      done
  | skip => done
  end.

(** Lines 64 to 142: what the handler does once the required records are
    known, for [dns_records] an array.  Line 57 can also bind [false] to the
    name; [Fetched.reconcile] covers that. *)
Definition reconcile (val : string) (dns_records required_dns_records : list DNSRecord.t) : io :=
  if 0 <? List.length dns_records then
    let t := classify required_dns_records dns_records in
    console_log "Current DNS records:" ;;
    table_output (table t) ;;
    console_log EmptyString ;;
    if will_not_work t then
      error "The current DNS records will not work with the current Page Rules." ;;
      warn "At least these DNS records MUST be added:" ;;
      outputDNSRecordsTable required_dns_records ;;
      prompt_list (remediate val dns_records required_dns_records t)
    else
      console_log congrats ;;
      done
  else
    console_log "There are no DNS records currently. Here is what they should be:" ;;
    outputDNSRecordsTable required_dns_records ;;
    prompt_confirm
      (fun confirmed =>
         if confirmed then createTheseDNSRecords val required_dns_records ;; done
         else done).

(** The handler reports the Page Rules as served by the live records
    exactly on the branch of line 125. *)
Definition fullyMet (required_dns_records dns_records : list DNSRecord.t) : bool :=
  (0 <? List.length dns_records)
  && negb (will_not_work (classify required_dns_records dns_records)).

(** [buildRequiredDNSRecordsForPagerules] comes from [lib/shared.js] too. *)
Variable buildRequiredDNSRecordsForPagerules : list PageRule.t -> list DNSRecord.t.

(** Lines 60 to 142: the callback of line 55 once line 56 has bound the
    two arrays of replies that both report success.  [Fetched.handler]
    takes the reply for the DNS records as line 57 reads it. *)
Definition handler (val : string) (dns_records : list DNSRecord.t)
    (pagerules : list PageRule.t) : io :=
  console_log "Current Page Rules:" ;;
  outputPageRulesAsText pagerules ;;
  reconcile val dns_records (buildRequiredDNSRecordsForPagerules pagerules).

End Handler.

Arguments classify : simpl never.

End Dns.

(** Lines 56 to 58 bind [resp.data.result] to [dns_records] only when the
    reply reports success, and [false] otherwise; the test of line 64 then
    meets a value that is no array. *)
Module Fetched.

(** [resp.data.success ? resp.data.result : false] (line 57); [None] is
    [false]. *)
Definition result_or_false {A : Type} (success : bool) (result : A) : option A :=
  if success then Some result else None.

(** [dns_records.length > 0] (line 64): [false.length] is [undefined], and
    [undefined > 0] is false. *)
Definition has_records (dns_records : option (list DNSRecord.t)) : bool :=
  match dns_records with
  | Some records => 0 <? List.length records
  | None => false
  end.

Section Handler.

Variables hasDNSRecord hasConflictingDNSRecord : list DNSRecord.t -> DNSRecord.t -> bool.

(** Lines 127 to 142, the branch that never reads [dns_records]. *)
Definition no_records (val : string) (required_dns_records : list DNSRecord.t) : Dns.io :=
  Dns.perform
    (Dns.console_log "There are no DNS records currently. Here is what they should be:")
    (Dns.perform (Dns.outputDNSRecordsTable required_dns_records)
       (Dns.prompt_confirm
          (fun confirmed =>
             if confirmed
             then Dns.perform (Dns.createTheseDNSRecords val required_dns_records) Dns.done
             else Dns.done))).

(** Lines 64 to 142 on what line 56 binds. *)
Definition reconcile (val : string) (dns_records : option (list DNSRecord.t))
    (required_dns_records : list DNSRecord.t) : Dns.io :=
  if has_records dns_records then
    match dns_records with
    | Some records =>
        Dns.reconcile hasDNSRecord hasConflictingDNSRecord val records
          required_dns_records
    | None => Dns.done
    end
  else no_records val required_dns_records.

Variable buildRequiredDNSRecordsForPagerules : list PageRule.t -> list DNSRecord.t.

(** Lines 56 to 142 for a reply with the DNS records that may report
    failure.  The Page Rules are those of a reply that reports success:
    the handler hands them to [lib/shared.js] unopened. *)
Definition handler (val : string) (success : bool) (result : list DNSRecord.t)
    (pagerules : list PageRule.t) : Dns.io :=
  Dns.perform (Dns.console_log "Current Page Rules:")
    (Dns.perform (Dns.outputPageRulesAsText pagerules)
       (reconcile val (result_or_false success result)
          (buildRequiredDNSRecordsForPagerules pagerules))).

End Handler.

End Fetched.

(* ===================================================================== *)
(** ** Sample records *)
(* ===================================================================== *)

Module Sample.

Definition www : DNSRecord.t :=
  DNSRecord.make "CNAME" "www.example.com" "example.com" 1 true.

Definition www_old : DNSRecord.t :=
  DNSRecord.make "CNAME" "www.example.com" "old-target.com" 1 true.

Definition shop : DNSRecord.t :=
  DNSRecord.make "CNAME" "shop.example.com" "example.com" 1 true.

Definition shop_unproxied : DNSRecord.t :=
  DNSRecord.make "CNAME" "shop.example.com" "example.com" 1 false.

Definition mail : DNSRecord.t :=
  DNSRecord.make "MX" "example.com" "mail.example.com" 3600 false.

Definition zone : string := "023e105f4ecef8ad9ca31a8372d0c353".

Definition old_to_new : Redirect.t :=
  Redirect.make "/old/*" "https://example.com/new" Redirect.forwarding.

Definition picks (choice : Dns.approach) : Dns.answers :=
  {| Dns.whichApproach := choice; Dns.confirmCreateIntent := false |}.

Definition confirms (yes : bool) : Dns.answers :=
  {| Dns.whichApproach := Dns.skip; Dns.confirmCreateIntent := yes |}.

End Sample.

(* ===================================================================== *)
(** ** The command with its imports resolved *)
(* ===================================================================== *)

(** [commands/dns.js] requires its helpers from [lib/shared.js]. *)
Module Command.

Definition classify : list DNSRecord.t -> list DNSRecord.t -> Dns.tally :=
  Dns.classify Shared.hasDNSRecord Shared.hasConflictingDNSRecord.

Definition fullyMet : list DNSRecord.t -> list DNSRecord.t -> bool :=
  Dns.fullyMet Shared.hasDNSRecord Shared.hasConflictingDNSRecord.

Definition reconcile : string -> list DNSRecord.t -> list DNSRecord.t -> Dns.io :=
  Dns.reconcile Shared.hasDNSRecord Shared.hasConflictingDNSRecord.

(** A live record is an exact match of a required one when type, name,
    content and proxied flag agree. *)
Definition exact_match (r l : DNSRecord.t) : bool :=
  DNSRecord.same_slot r l && DNSRecord.same_value r l.

(** The required records that no live record matches. *)
Definition missing (required_dns_records dns_records : list DNSRecord.t) : list DNSRecord.t :=
  filter (fun r => negb (existsb (exact_match r) dns_records)) required_dns_records.

(** [fullyMet] in the words of the spec (4.3, [classify]): no required
    record lacks a matching live record, and no live record is in the
    conflicting bucket. *)
Definition fullyMet_spec (required_dns_records dns_records : list DNSRecord.t) : bool :=
  forallb (fun r => existsb (exact_match r) dns_records) required_dns_records
  && forallb
       (fun l => Shared.hasDNSRecord required_dns_records l
                 || negb (Shared.hasConflictingDNSRecord required_dns_records l))
       dns_records.

End Command.

(* ===================================================================== *)
(** ** The handler of the [domains] command *)
(* ===================================================================== *)

(** A zone as the provider lists it; the handler reads [zone.name],
    [zone.id], [zone.status], [zone.account.name], [zone.plan.name],
    [zone.meta.page_rule_quota] and [zone.name_servers]. *)
Module Zone.

Record t : Type := make
  { name : string;
    id : string;
    status : string;
    account_name : string;
    plan_name : string;
    page_rule_quota : Z;
    name_servers : list string }.

End Zone.

(** An account of the token; the handler reads [id] and [name]. *)
Module Account.

Record t : Type := make
  { id : string;
    name : string }.

End Account.

(** The second command of the sources (lines 150 to 340): it lists the
    zones of the account, caches their ids, and offers to create a zone,
    with its Page Rules, for every redirect description that has none. *)
Module Domains.

(** [s.substr(0, n)]: the first [n] characters of [s], none at all when [n]
    is not positive.  A character stands for a code unit of the string. *)
Definition substr0 (s : string) (n : Z) : string :=
  if (n <=? 0)%Z then EmptyString else String.substring 0 (Z.to_nat n) s.

(** [filename.substr(0, filename.length-5)] (lines 228, 234 and 258). *)
Definition stem (filename : string) : string :=
  substr0 filename (Z.of_nat (String.length filename) - 5).

(** [filename[0] !== '.'], negated; an empty name has no first character. *)
Definition starts_with_dot (filename : string) : bool :=
  match filename with
  | EmptyString => false
  | String c _ => (c =? ".")%char
  end.

(** [zone_names.indexOf(x) === -1], negated. *)
Definition listed (zone_names : list string) (x : string) : bool :=
  existsb (String.eqb x) zone_names.

(** The filter of lines 226 to 229. *)
Definition missing_descriptions (contents zone_names : list string) : list string :=
  filter
    (fun filename =>
       negb (starts_with_dot filename) && negb (listed zone_names (stem filename)))
    contents.

(** What the handler prints with [console.log]. *)
Inductive output : Type :=
| zones_heading (count : nat)
| zone_summary (zone : Zone.t) (active : bool)
| description_exists (file : string)
| update_nameservers (servers : list string)
| missing_heading (count : nat)
| missing_entry (domain path : string)
| blank
| adding_to (account_name : string)
| zone_created (name status : string)
| text (line : string)
| thrown.

(** What the handler does to the outside world. *)
Inductive call : Type :=
| axios_get (url : string)
| axios_post_zones (name account_id : string)
| axios_post_pagerules (zone_id : string) (pagerule : PageRule.t)
| db_put (key value : string)
| db_close
| inquirer_prompt (name message : string)
| console_log (what : output)
| console_error
| console_dir
| error (line : string)
| outputPageRulesAsText (pagerules : list PageRule.t).

(** How a request ends: the promise rejects, with the status of the
    response when there is one, or it is fulfilled with [resp.data.success]
    and [resp.data.result]. *)
Inductive reply (A : Type) : Type :=
| rejected (response_status : option Z)
| replied (success : bool) (result : A).

Arguments rejected {A} response_status.
Arguments replied {A} success result.

(** The prompts of one run: the one of line 239, the one of line 259 for
    the [i]-th missing description, and the one of line 286 for the [j]-th
    redirect of that description. *)
Inductive question : Type :=
| ask_confirmCreateIntent
| ask_confirmCreate (i : nat)
| ask_proceed (i j : nat).

(** All that the outside world answers in one run. *)
Record world : Type :=
  { zones : reply (list Zone.t);
    put_rejected : nat -> bool;
    answers : question -> bool;
    accounts : reply (list Account.t);
    created_zone : nat -> reply Zone.t;
    created_pagerules : nat -> nat -> reply (list PageRule.t) }.

(** The handler as a finite tree.  A node that waits for the outside world
    carries its callback ([then_]) and the synchronous code that follows the
    statement ([next]). *)
Inductive proc : Type :=
| stop
| act (c : call) (next : proc)
| put (i : nat) (key value : string) (on_reject : proc) (next : proc)
| get_zones (then_ : reply (list Zone.t) -> proc) (next : proc)
| get_accounts (then_ : reply (list Account.t) -> proc) (next : proc)
| post_zones (i : nat) (name account_id : string)
    (then_ : reply Zone.t -> proc) (next : proc)
| post_pagerules (i j : nat) (zone_id : string) (pagerule : PageRule.t)
    (then_ : reply (list PageRule.t) -> proc) (next : proc)
| prompt (q : question) (name message : string)
    (then_ : bool -> proc) (next : proc).

(** The calls of a run in one order they can be made in: a callback runs
    after the synchronous code that registered it.  The order between the
    callbacks of different chains is the outside world's. *)
Fixpoint calls (w : world) (p : proc) : list call :=
  match p with
  | stop => []
  | act c next => c :: calls w next
  | put i key value on_reject next =>
      db_put key value
        :: calls w next ++ (if put_rejected w i then calls w on_reject else [])
  | get_zones then_ next =>
      axios_get "/zones" :: calls w next ++ calls w (then_ (zones w))
  | get_accounts then_ next =>
      axios_get "/accounts" :: calls w next ++ calls w (then_ (accounts w))
  | post_zones i name account_id then_ next =>
      axios_post_zones name account_id
        :: calls w next ++ calls w (then_ (created_zone w i))
  | post_pagerules i j zone_id pagerule then_ next =>
      axios_post_pagerules zone_id pagerule
        :: calls w next ++ calls w (then_ (created_pagerules w i j))
  | prompt q name message then_ next =>
      inquirer_prompt name message
        :: calls w next ++ calls w (then_ (answers w q))
  end.

(** [if (b) c; next] *)
Definition when (b : bool) (c : call) (next : proc) : proc :=
  if b then act c next else next.

(** A string is truthy unless it is empty. *)
Definition truthy (s : string) : bool :=
  match s with
  | EmptyString => false
  | String _ _ => true
  end.

Section Handler.

(** The file system and [path], as the handler uses them. *)
Variable cwd : string.
Variable path_join : list string -> string.
Variable path_relative : string -> string -> string.
Variable existsSync : string -> bool.

(** [YAML.safeLoad(fs.readFileSync(path))] followed by [.redirects]; [None]
    when any of it throws.  This part of the sources requires neither [YAML]
    nor [lib/shared.js], so both this and the conversion below are left to
    the caller of the model, a throw included. *)
Variable load_redirects : string -> option (list Redirect.t).

(** [convertRedirectToPageRule]; [None] when it throws. *)
Variable convertRedirectToPageRule : Redirect.t -> string -> option PageRule.t.

(** [argv.configDir.name]. *)
Variable configDir_name : string.

(** Lines 162 to 174; [None] is [false]. *)
Definition findDescription (domain dir : string) : option string :=
  let redir_filepath_json := path_join [cwd; dir; (domain ++ ".json")%string] in
  let redir_filepath_yaml := path_join [cwd; dir; (domain ++ ".yaml")%string] in
  if existsSync redir_filepath_json then Some (path_relative cwd redir_filepath_json)
  else if existsSync redir_filepath_yaml then Some (path_relative cwd redir_filepath_yaml)
  else None.

(** The callback of the request of line 293. *)
Definition pagerule_posted (r : reply (list PageRule.t)) : proc :=
  match r with
  | replied true result =>
      act (console_log (text "Page rule successfully created!"))
        (act (outputPageRulesAsText result) stop)
  | replied false _ => stop
  | rejected _ => act console_error stop
  end.

(** [description.redirects.forEach] (lines 282 to 307), inside the [try] of
    line 280: a conversion that throws ends the loop in the [catch]. *)
Fixpoint each_redirect (i j : nat) (zone_id domain : string)
    (redirects : list Redirect.t) : proc :=
  match redirects with
  | [] => stop
  | redir :: rest =>
      match convertRedirectToPageRule redir ("*" ++ domain)%string with
      | None => act console_error stop
      | Some pagerule =>
          act (console_log (text "Does this Page Rule look OK?"))
            (act (outputPageRulesAsText [pagerule])
               (prompt (ask_proceed i j) "proceed" "Shall we continue?"
                  (fun proceed =>
                     if proceed
                     then post_pagerules i j zone_id pagerule pagerule_posted stop
                     else stop)
                  (each_redirect i (S j) zone_id domain rest)))
      end
  end.

(** The callbacks of the request of line 266 (lines 271 to 322).  This
    part of the sources binds no [error]: on a 403, line 318 throws before
    anything is printed. *)
Definition zone_posted (i : nat) (filename domain : string) (r : reply Zone.t) : proc :=
  match r with
  | replied true created =>
      act (console_log (zone_created (Zone.name created) (Zone.status created)))
        match load_redirects (path_join [cwd; configDir_name; filename]) with
        | Some redirects => each_redirect i 0 (Zone.id created) domain redirects
        | None => act console_error stop
        end
  | replied false _ => stop
  | rejected (Some 403%Z) => stop
  | rejected _ => act console_error stop
  end.

(** The second [missing.forEach] (lines 257 to 325). *)
Fixpoint each_missing (i : nat) (account_id account_name : string)
    (missing : list string) : proc :=
  match missing with
  | [] => stop
  | filename :: rest =>
      let domain := stem filename in
      prompt (ask_confirmCreate i) "confirmCreate"
        ("Add " ++ domain ++ " to " ++ account_name ++ "?")%string
        (fun confirmCreate =>
           if confirmCreate
           then post_zones i domain account_id (zone_posted i filename domain) stop
           else stop)
        (each_missing (S i) account_id account_name rest)
  end.

(** The callbacks of the request of line 248 (lines 249 to 331).  With an
    empty list of accounts [result[0].id] throws, which lands in the
    [catch]; there [err.response.data] throws in turn when the error has no
    response. *)
Definition accounts_fetched (missing : list string) (r : reply (list Account.t)) : proc :=
  match r with
  | replied true (account :: _) =>
      act (console_log (adding_to (Account.name account)))
        (each_missing 0 (Account.id account) (Account.name account) missing)
  | replied true [] => act (console_log thrown) stop
  | replied false _ => stop
  | rejected None => act (console_log thrown) stop
  | rejected (Some _) => act (console_log thrown) (act console_dir stop)
  end.

(** The first [missing.forEach] (lines 233 to 235). *)
Fixpoint list_missing (missing : list string) (next : proc) : proc :=
  match missing with
  | [] => next
  | li :: rest =>
      act (console_log (missing_entry (stem li) (path_join [configDir_name; li])))
        (list_missing rest next)
  end.

(** [resp.data.result.forEach] (lines 208 to 222). *)
Fixpoint each_zone (i : nat) (result : list Zone.t) (next : proc) : proc :=
  match result with
  | [] => next
  | zone :: rest =>
      act (console_log (zone_summary zone (Zone.status zone =? "active")%string))
        (match findDescription (Zone.name zone) configDir_name with
         | Some description_file =>
             when (truthy description_file)
               (console_log (description_exists description_file))
         | None => fun next => next
         end
           (when (Zone.status zone =? "pending")%string
              (console_log (update_nameservers (Zone.name_servers zone)))
              (put i (Zone.name zone) (Zone.id zone) (act console_error stop)
                 (each_zone (S i) rest next))))
  end.

(** The callbacks of the request of line 200 (lines 201 to 339).  The
    callback reads [resp.data.result] without looking at
    [resp.data.success]; the [catch] reads [err.response.data], which throws
    when the error has no response. *)
Definition zones_fetched (contents : list string) (r : reply (list Zone.t)) : proc :=
  match r with
  | rejected None => act console_error stop
  | rejected (Some _) => act console_error (act console_error stop)
  | replied _ result =>
      act (console_log (zones_heading (List.length result)))
        (each_zone 0 result
           (act db_close
              (let zone_names := map Zone.name result in
               let missing := missing_descriptions contents zone_names in
               if 0 <? List.length missing then
                 act (console_log (missing_heading (List.length missing)))
                   (list_missing missing
                      (act (console_log blank)
                         (prompt ask_confirmCreateIntent "confirmCreateIntent"
                            "Are you ready to create the missing zones on Cloudflare?"
                            (fun confirmCreateIntent =>
                               if confirmCreateIntent
                               then get_accounts (accounts_fetched missing) stop
                               else stop)
                            stop)))
               else stop)))
  end.

(** Lines 198 to 340; [contents] is [argv.configDir.contents]. *)
Definition handler (contents : list string) : proc :=
  get_zones (zones_fetched contents) stop.

(** The conditions under which the handler posts: a Page Rule from the
    loop over the redirects, a Page Rule from the callback of a zone
    creation, and either request from the loop over the missing
    descriptions. *)
Variable w : world.

Definition posted_from (i j : nat) (zone_id domain : string)
    (redirects : list Redirect.t) (c : call) : Prop :=
  exists k redir pagerule,
    nth_error redirects k = Some redir
    /\ convertRedirectToPageRule redir ("*" ++ domain)%string = Some pagerule
    /\ answers w (ask_proceed i (j + k)) = true
    /\ c = axios_post_pagerules zone_id pagerule.

Definition posted_for (i : nat) (filename : string) (c : call) : Prop :=
  exists created redirects,
    created_zone w i = replied true created
    /\ load_redirects (path_join [cwd; configDir_name; filename]) = Some redirects
    /\ posted_from i 0 (Zone.id created) (stem filename) redirects c.

Definition requested_for (i : nat) (account_id : string) (missing : list string)
    (c : call) : Prop :=
  exists k filename,
    nth_error missing k = Some filename
    /\ answers w (ask_confirmCreate (i + k)) = true
    /\ (c = axios_post_zones (stem filename) account_id
        \/ posted_for (i + k) filename c).

(** The condition under which the handler asks anything of the provider
    beyond the list of zones. *)
Definition asked_of_provider (contents : list string) (c : call) : Prop :=
  exists success result,
    zones w = replied success result
    /\ answers w ask_confirmCreateIntent = true
    /\ (c = axios_get "/accounts"
        \/ exists account others,
             accounts w = replied true (account :: others)
             /\ requested_for 0 (Account.id account)
                  (missing_descriptions contents (map Zone.name result)) c).

End Handler.

(** The handler as these sources have it.  They require [fs], [path],
    [axios], [chalk], [inquirer] and [level] only, so [YAML] (line 281) and
    [convertRedirectToPageRule] (line 283) are names without a binding:
    evaluating either throws, inside the [try] of line 280. *)
Definition YAML_is_not_defined (path : string) : option (list Redirect.t) := None.

Definition convertRedirectToPageRule_is_not_defined
    (redir : Redirect.t) (default_base : string) : option PageRule.t := None.

Definition as_written (cwd : string) (path_join : list string -> string)
    (path_relative : string -> string -> string) (existsSync : string -> bool)
    (configDir_name : string) (contents : list string) : proc :=
  handler cwd path_join path_relative existsSync YAML_is_not_defined
    convertRedirectToPageRule_is_not_defined configDir_name contents.

Definition is_post (c : call) : bool :=
  match c with
  | axios_post_zones _ _ | axios_post_pagerules _ _ => true
  | _ => false
  end.

Definition is_put (c : call) : bool :=
  match c with
  | db_put _ _ => true
  | _ => false
  end.

(** The calls that go to the provider. *)
Definition is_request (c : call) : bool :=
  match c with
  | axios_get _ | axios_post_zones _ _ | axios_post_pagerules _ _ => true
  | _ => false
  end.

(** The calls that only print. *)
Definition is_output (c : call) : bool :=
  match c with
  | console_log _ | console_error | console_dir | error _
  | outputPageRulesAsText _ => true
  | _ => false
  end.

Definition is_prompt (c : call) : bool :=
  match c with
  | inquirer_prompt _ _ => true
  | _ => false
  end.

End Domains.

(** A run of the [domains] command: the account holds example.com, the
    configuration directory describes example.com and example.org, and the
    user agrees to everything. *)
Module Tour.

Definition example_com : Zone.t :=
  Zone.make "example.com" "023e105f4ecef8ad9ca31a8372d0c353" "active"
    "Example" "Free" 3 [].

Definition example_org : Zone.t :=
  Zone.make "example.org" "9a7806061c88ada191ed06f989cc3dac" "pending"
    "Example" "Free" 3 ["ns1.example.net"%string; "ns2.example.net"%string].

Definition account : Account.t := Account.make "01a7362d577a6c3019a474fd6f485823" "Example".

Definition contents : list string :=
  [".gitignore"%string; "example.com.yaml"%string; "example.org.yaml"%string].

Definition rule : PageRule.t :=
  PageRule.make "*example.org/old/*"
    [PageRule.make_action "forwarding_url"
       (PageRule.forwarding_value "https://example.com/new" 301)]
    1 PageRule.active.

Definition yes : Domains.world :=
  {| Domains.zones := Domains.replied true [example_com];
     Domains.put_rejected := fun _ => false;
     Domains.answers := fun _ => true;
     Domains.accounts := Domains.replied true [account];
     Domains.created_zone := fun _ => Domains.replied true example_org;
     Domains.created_pagerules := fun _ _ => Domains.replied true [rule] |}.

(** The same world with a user who declines everything. *)
Definition no : Domains.world :=
  {| Domains.zones := Domains.replied true [example_com];
     Domains.put_rejected := fun _ => false;
     Domains.answers := fun _ => false;
     Domains.accounts := Domains.replied true [account];
     Domains.created_zone := fun _ => Domains.replied true example_org;
     Domains.created_pagerules := fun _ _ => Domains.replied true [rule] |}.

Definition path_join (parts : list string) : string := String.concat "/" parts.

(** Loading and converting as the sources have them: both throw. *)
Definition load_redirects : string -> option (list Redirect.t) :=
  Domains.YAML_is_not_defined.

Definition convert : Redirect.t -> string -> option PageRule.t :=
  Domains.convertRedirectToPageRule_is_not_defined.

Definition handler : list string -> Domains.proc :=
  Domains.handler "/srv" path_join (fun _ p => p) (fun _ => true)
    load_redirects convert "redirects".

End Tour.

(* ===================================================================== *)
(** ** The loop over the live records *)
(* ===================================================================== *)

Section Classification.

Variables hasDNSRecord hasConflictingDNSRecord : list DNSRecord.t -> DNSRecord.t -> bool.
Variable required_dns_records : list DNSRecord.t.

Let satisfies (l : DNSRecord.t) : bool := hasDNSRecord required_dns_records l.
Let clashes (l : DNSRecord.t) : bool :=
  negb (hasDNSRecord required_dns_records l)
  && hasConflictingDNSRecord required_dns_records l.
Let neither (l : DNSRecord.t) : bool :=
  negb (hasDNSRecord required_dns_records l)
  && negb (hasConflictingDNSRecord required_dns_records l).

Let step := Dns.classify_line hasDNSRecord hasConflictingDNSRecord required_dns_records.

Lemma classify_line_fold (dns_records : list DNSRecord.t) (acc : Dns.tally) :
  let t := fold_left step dns_records acc in
  Dns.properly_proxied t = Dns.properly_proxied acc ++ filter satisfies dns_records
  /\ Dns.conflicts t = Dns.conflicts acc ++ filter clashes dns_records
  /\ Dns.unrelated t = Dns.unrelated acc ++ filter neither dns_records.
Proof.
  revert acc. induction dns_records as [|l rest IH]; intros acc; cbn.
  - now rewrite !app_nil_r.
  - destruct (IH (step acc l)) as (Hp & Hc & Hu).
    cbn in Hp, Hc, Hu. rewrite Hp, Hc, Hu. clear IH Hp Hc Hu.
    unfold step, Dns.classify_line, satisfies, clashes, neither, Dns.unrelated.
    destruct (hasDNSRecord required_dns_records l);
      [|destruct (hasConflictingDNSRecord required_dns_records l)];
      cbn; rewrite ?filter_app, ?map_app; cbn; rewrite <- ?app_assoc, ?app_nil_r;
      auto.
Qed.

Lemma classify_filters (dns_records : list DNSRecord.t) :
  let t := Dns.classify hasDNSRecord hasConflictingDNSRecord required_dns_records dns_records in
  Dns.properly_proxied t = filter satisfies dns_records
  /\ Dns.conflicts t = filter clashes dns_records
  /\ Dns.unrelated t = filter neither dns_records.
Proof.
  exact (classify_line_fold dns_records
           {| Dns.properly_proxied := []; Dns.conflicts := []; Dns.table := [] |}).
Qed.

End Classification.

Section Buckets.

Variables hasDNSRecord hasConflictingDNSRecord : list DNSRecord.t -> DNSRecord.t -> bool.
Variables required_dns_records dns_records : list DNSRecord.t.

Let t := Dns.classify hasDNSRecord hasConflictingDNSRecord required_dns_records dns_records.

Lemma in_properly_proxied (l : DNSRecord.t) :
  In l (Dns.properly_proxied t)
  <-> In l dns_records /\ hasDNSRecord required_dns_records l = true.
Proof.
  unfold t.
  destruct (classify_filters hasDNSRecord hasConflictingDNSRecord
              required_dns_records dns_records) as (-> & _).
  apply filter_In.
Qed.

Lemma in_conflicts (l : DNSRecord.t) :
  In l (Dns.conflicts t)
  <-> In l dns_records
      /\ hasDNSRecord required_dns_records l = false
      /\ hasConflictingDNSRecord required_dns_records l = true.
Proof.
  unfold t.
  destruct (classify_filters hasDNSRecord hasConflictingDNSRecord
              required_dns_records dns_records) as (_ & -> & _).
  rewrite filter_In, andb_true_iff, negb_true_iff. tauto.
Qed.

Lemma in_unrelated (l : DNSRecord.t) :
  In l (Dns.unrelated t)
  <-> In l dns_records
      /\ hasDNSRecord required_dns_records l = false
      /\ hasConflictingDNSRecord required_dns_records l = false.
Proof.
  unfold t.
  destruct (classify_filters hasDNSRecord hasConflictingDNSRecord
              required_dns_records dns_records) as (_ & _ & ->).
  rewrite filter_In, andb_true_iff, !negb_true_iff. tauto.
Qed.

(** The three buckets hold the live records, each as often as it occurs. *)
Lemma buckets_permutation :
  Permutation
    (Dns.properly_proxied t ++ Dns.conflicts t ++ Dns.unrelated t)
    dns_records.
Proof.
  unfold t.
  destruct (classify_filters hasDNSRecord hasConflictingDNSRecord
              required_dns_records dns_records) as (-> & -> & ->).
  induction dns_records as [|l rest IH]; cbn; [constructor|].
  destruct (hasDNSRecord required_dns_records l); cbn.
  - now constructor.
  - destruct (hasConflictingDNSRecord required_dns_records l); cbn.
    + rewrite <- Permutation_middle. now constructor.
    + rewrite app_assoc, <- Permutation_middle, <- app_assoc. now constructor.
Qed.

(** Line 88, read on the live records. *)
Lemma will_not_work_false :
  Dns.will_not_work t = false
  <-> (exists l, In l dns_records /\ hasDNSRecord required_dns_records l = true)
      /\ (forall l, In l dns_records ->
            hasDNSRecord required_dns_records l = false ->
            hasConflictingDNSRecord required_dns_records l = false).
Proof.
  unfold Dns.will_not_work. rewrite orb_false_iff, Nat.eqb_neq, Nat.ltb_ge.
  split.
  - intros [Hp Hc]. split.
    + destruct (Dns.properly_proxied t) as [|l ls] eqn:E; [easy|].
      exists l. apply in_properly_proxied. rewrite E. now left.
    + intros l Hin Hno.
      destruct (hasConflictingDNSRecord required_dns_records l) eqn:E; [|easy].
      assert (In l (Dns.conflicts t)) as Hl by now apply in_conflicts.
      destruct (Dns.conflicts t); [easy | cbn in Hc; lia].
  - intros [(l & Hin & Hl) Hc]. split.
    + assert (In l (Dns.properly_proxied t)) as H by now apply in_properly_proxied.
      destruct (Dns.properly_proxied t); [easy | cbn; lia].
    + destruct (Dns.conflicts t) as [|c cs] eqn:E; [cbn; lia|].
      assert (In c (Dns.conflicts t)) as H by (rewrite E; now left).
      apply in_conflicts in H. destruct H as (Hin' & Hno & Hyes).
      rewrite (Hc c Hin' Hno) in Hyes. discriminate.
Qed.

End Buckets.

(* ===================================================================== *)
(** ** Running the handler *)
(* ===================================================================== *)

Section Runs.

Variables hasDNSRecord hasConflictingDNSRecord : list DNSRecord.t -> DNSRecord.t -> bool.
Variable val : string.
Variables dns_records required_dns_records : list DNSRecord.t.
Variable user : Dns.answers.

Let t := Dns.classify hasDNSRecord hasConflictingDNSRecord required_dns_records dns_records.
Let trace :=
  Dns.run (Dns.reconcile hasDNSRecord hasConflictingDNSRecord val
             dns_records required_dns_records) user.

(** The user is asked how to proceed exactly when there are live records
    and line 88 finds them wanting. *)
Lemma asked_which_approach :
  In (Dns.inquirer_prompt "whichApproach") trace
  <-> dns_records <> [] /\ Dns.will_not_work t = true.
Proof.
  unfold trace, Dns.reconcile. fold t.
  destruct dns_records as [|l rest]; cbn.
  - split; [|intros [H _]; now elim H].
    intros [H|[H|[H|H]]]; try discriminate H.
    destruct (Dns.confirmCreateIntent user); cbn in H;
      [destruct H as [H|H]|]; try discriminate H; contradiction.
  - destruct (Dns.will_not_work t) eqn:E; cbn.
    + split; [easy|]. intros _. do 6 right. now left.
    + split; [|intros [_ H]; discriminate H].
      intros [H|[H|[H|[H|H]]]]; try discriminate H. contradiction.
Qed.

(** The calls after the prompt are those of the chosen branch. *)
Lemma mutations_after_prompt :
  In (Dns.inquirer_prompt "whichApproach") trace ->
  Dns.mutations trace
  = Dns.mutations
      (Dns.run (Dns.remediate val dns_records required_dns_records t
                  (Dns.whichApproach user)) user).
Proof.
  intros H. apply asked_which_approach in H. destruct H as [Hne Hw].
  unfold trace, Dns.reconcile. fold t.
  destruct dns_records as [|l rest]; [now elim Hne|].
  cbn. rewrite Hw. reflexivity.
Qed.

(** Without the prompt, nothing is ever deleted. *)
Lemma mutations_without_prompt :
  ~ In (Dns.inquirer_prompt "whichApproach") trace ->
  Dns.mutations trace
  = match dns_records with
    | [] =>
        if Dns.confirmCreateIntent user
        then [Dns.createTheseDNSRecords val required_dns_records]
        else []
    | _ :: _ => []
    end.
Proof.
  intros H. rewrite asked_which_approach in H.
  unfold trace, Dns.reconcile. fold t.
  destruct dns_records as [|l rest]; cbn.
  - now destruct (Dns.confirmCreateIntent user).
  - destruct (Dns.will_not_work t) eqn:E; [|reflexivity].
    elim H. now split.
Qed.


End Runs.

(** The handler proper only adds the listing of the Page Rules. *)
Lemma handler_mutations
    (hasDNSRecord hasConflictingDNSRecord : list DNSRecord.t -> DNSRecord.t -> bool)
    (buildRequiredDNSRecordsForPagerules : list PageRule.t -> list DNSRecord.t)
    (val : string) (dns_records : list DNSRecord.t) (pagerules : list PageRule.t)
    (user : Dns.answers) :
  Dns.mutations
    (Dns.run (Dns.handler hasDNSRecord hasConflictingDNSRecord
                buildRequiredDNSRecordsForPagerules val dns_records pagerules) user)
  = Dns.mutations
      (Dns.run (Dns.reconcile hasDNSRecord hasConflictingDNSRecord val dns_records
                  (buildRequiredDNSRecordsForPagerules pagerules)) user).
Proof. reflexivity. Qed.

Lemma deleted_mutations (trace : list Dns.call) :
  Dns.deleted (Dns.mutations trace) = Dns.deleted trace.
Proof.
  induction trace as [|c rest IH]; [reflexivity|].
  unfold Dns.mutations in *.
  destruct c; cbn; fold (Dns.deleted rest) (Dns.created rest);
    rewrite <- IH; reflexivity.
Qed.

Lemma created_mutations (trace : list Dns.call) :
  Dns.created (Dns.mutations trace) = Dns.created trace.
Proof.
  induction trace as [|c rest IH]; [reflexivity|].
  unfold Dns.mutations in *.
  destruct c; cbn; fold (Dns.deleted rest) (Dns.created rest);
    rewrite <- IH; reflexivity.
Qed.

(* ===================================================================== *)
(** ** The three answers to the prompt *)
(* ===================================================================== *)

(** C5: when the user is asked how to add the records and answers
    "Replace only the required ones", the handler deletes exactly the
    conflicting live records and then creates exactly the required records;
    no deleted record is among the properly proxied or the unrelated ones. *)
Theorem required_only_plan
    (hasDNSRecord hasConflictingDNSRecord : list DNSRecord.t -> DNSRecord.t -> bool)
    (val : string) (dns_records required_dns_records : list DNSRecord.t)
    (user : Dns.answers) :
  let t := Dns.classify hasDNSRecord hasConflictingDNSRecord
             required_dns_records dns_records in
  let trace := Dns.run (Dns.reconcile hasDNSRecord hasConflictingDNSRecord val
                          dns_records required_dns_records) user in
  In (Dns.inquirer_prompt "whichApproach") trace ->
  Dns.whichApproach user = Dns.required ->
  Dns.mutations trace
  = [Dns.deleteTheseDNSRecords val (Dns.conflicts t);
     Dns.createTheseDNSRecords val required_dns_records]
  /\ Dns.deleted trace = Dns.conflicts t
  /\ Dns.created trace = required_dns_records
  /\ forall l, In l (Dns.deleted trace) ->
       ~ In l (Dns.properly_proxied t) /\ ~ In l (Dns.unrelated t).
Proof.
  intros t trace Hasked Hchoice.
  assert (Dns.mutations trace
          = [Dns.deleteTheseDNSRecords val (Dns.conflicts t);
             Dns.createTheseDNSRecords val required_dns_records]) as Hm.
  { unfold trace. rewrite mutations_after_prompt by exact Hasked.
    rewrite Hchoice. reflexivity. }
  assert (Dns.deleted trace = Dns.conflicts t) as Hd.
  { rewrite <- deleted_mutations, Hm. cbn. now rewrite app_nil_r. }
  repeat split; try assumption.
  - rewrite <- created_mutations, Hm. cbn. now rewrite app_nil_r.
  - rewrite Hd in H. intros Hp.
    apply in_conflicts in H. apply in_properly_proxied in Hp.
    destruct H as (_ & Hno & _), Hp as (_ & Hyes). congruence.
  - rewrite Hd in H. intros Hu.
    apply in_conflicts in H. apply in_unrelated in Hu.
    destruct H as (_ & _ & Hyes), Hu as (_ & _ & Hno). congruence.
Qed.

Lemma required_only_plan_witness :
  Dns.deleted (Dns.run (Command.reconcile Sample.zone
                          [Sample.www_old; Sample.mail] [Sample.www])
                 (Sample.picks Dns.required))
  = [Sample.www_old].
Proof.
  refine (proj1 (proj2 (required_only_plan
            Shared.hasDNSRecord Shared.hasConflictingDNSRecord Sample.zone
            [Sample.www_old; Sample.mail] [Sample.www]
            (Sample.picks Dns.required) _ _))).
  - vm_compute. do 6 right. left. reflexivity.
  - reflexivity.
Defined.

(** C6: when the user is asked how to add the records and answers "Replace
    them all", the handler deletes every live record of the zone, whichever
    bucket it is in, and then creates every required record. *)
Theorem replace_all_plan
    (hasDNSRecord hasConflictingDNSRecord : list DNSRecord.t -> DNSRecord.t -> bool)
    (val : string) (dns_records required_dns_records : list DNSRecord.t)
    (user : Dns.answers) :
  let t := Dns.classify hasDNSRecord hasConflictingDNSRecord
             required_dns_records dns_records in
  let trace := Dns.run (Dns.reconcile hasDNSRecord hasConflictingDNSRecord val
                          dns_records required_dns_records) user in
  In (Dns.inquirer_prompt "whichApproach") trace ->
  Dns.whichApproach user = Dns.all ->
  Dns.mutations trace
  = [Dns.deleteTheseDNSRecords val dns_records;
     Dns.createTheseDNSRecords val required_dns_records]
  /\ Dns.deleted trace = dns_records
  /\ Dns.created trace = required_dns_records
  /\ forall l,
       In l (Dns.properly_proxied t) \/ In l (Dns.conflicts t)
       \/ In l (Dns.unrelated t) ->
       In l (Dns.deleted trace).
Proof.
  intros t trace Hasked Hchoice.
  assert (Dns.mutations trace
          = [Dns.deleteTheseDNSRecords val dns_records;
             Dns.createTheseDNSRecords val required_dns_records]) as Hm.
  { unfold trace. rewrite mutations_after_prompt by exact Hasked.
    rewrite Hchoice. reflexivity. }
  assert (Dns.deleted trace = dns_records) as Hd.
  { rewrite <- deleted_mutations, Hm. cbn. now rewrite app_nil_r. }
  repeat split; try assumption.
  - rewrite <- created_mutations, Hm. cbn. now rewrite app_nil_r.
  - rewrite Hd. intros l [H|[H|H]].
    + now apply in_properly_proxied in H.
    + now apply in_conflicts in H.
    + now apply in_unrelated in H.
Qed.

Lemma replace_all_plan_witness :
  Dns.deleted (Dns.run (Command.reconcile Sample.zone
                          [Sample.www_old; Sample.mail] [Sample.www])
                 (Sample.picks Dns.all))
  = [Sample.www_old; Sample.mail].
Proof.
  refine (proj1 (proj2 (replace_all_plan
            Shared.hasDNSRecord Shared.hasConflictingDNSRecord Sample.zone
            [Sample.www_old; Sample.mail] [Sample.www]
            (Sample.picks Dns.all) _ _))).
  - vm_compute. do 6 right. left. reflexivity.
  - reflexivity.
Defined.

(** C10: when the user is asked how to add the records and answers "Do
    nothing at this time.", the handler calls neither
    [deleteTheseDNSRecords] nor [createTheseDNSRecords]. *)
Theorem skip_issues_no_mutation
    (hasDNSRecord hasConflictingDNSRecord : list DNSRecord.t -> DNSRecord.t -> bool)
    (val : string) (dns_records required_dns_records : list DNSRecord.t)
    (user : Dns.answers) :
  let trace := Dns.run (Dns.reconcile hasDNSRecord hasConflictingDNSRecord val
                          dns_records required_dns_records) user in
  In (Dns.inquirer_prompt "whichApproach") trace ->
  Dns.whichApproach user = Dns.skip ->
  Dns.mutations trace = []
  /\ Dns.deleted trace = []
  /\ Dns.created trace = [].
Proof.
  intros trace Hasked Hchoice.
  assert (Dns.mutations trace = []) as Hm.
  { unfold trace. rewrite mutations_after_prompt by exact Hasked.
    rewrite Hchoice. reflexivity. }
  rewrite <- deleted_mutations, <- created_mutations, Hm. now repeat split.
Qed.

Lemma skip_issues_no_mutation_witness :
  Dns.mutations (Dns.run (Command.reconcile Sample.zone
                            [Sample.www_old; Sample.mail] [Sample.www])
                   (Sample.picks Dns.skip))
  = [].
Proof.
  refine (proj1 (skip_issues_no_mutation
            Shared.hasDNSRecord Shared.hasConflictingDNSRecord Sample.zone
            [Sample.www_old; Sample.mail] [Sample.www]
            (Sample.picks Dns.skip) _ _)).
  - vm_compute. do 6 right. left. reflexivity.
  - reflexivity.
Defined.

(* ===================================================================== *)
(** ** The predicates of [lib/shared.js] *)
(* ===================================================================== *)

Lemma same_slot_true (r l : DNSRecord.t) :
  DNSRecord.same_slot r l = true
  <-> DNSRecord.type r = DNSRecord.type l /\ DNSRecord.name r = DNSRecord.name l.
Proof.
  unfold DNSRecord.same_slot. now rewrite andb_true_iff, !String.eqb_eq.
Qed.

Lemma same_slot_iff_slot (r l : DNSRecord.t) :
  DNSRecord.same_slot r l = true <-> DNSRecord.slot r = DNSRecord.slot l.
Proof.
  rewrite same_slot_true. unfold DNSRecord.slot.
  split; [intros [-> ->]; reflexivity | intros H; now inversion H].
Qed.

Lemma same_value_true (r l : DNSRecord.t) :
  DNSRecord.same_value r l = true
  <-> DNSRecord.content r = DNSRecord.content l
      /\ DNSRecord.proxied r = DNSRecord.proxied l.
Proof.
  unfold DNSRecord.same_value.
  now rewrite andb_true_iff, String.eqb_eq, Bool.eqb_true_iff.
Qed.

Lemma hasDNSRecord_true (required_dns_records : list DNSRecord.t) (l : DNSRecord.t) :
  Shared.hasDNSRecord required_dns_records l = true
  <-> exists r, In r required_dns_records /\ Command.exact_match r l = true.
Proof. apply existsb_exists. Qed.

(** A live record in a slot that no required record uses is neither
    matching nor conflicting. *)
Lemma foreign_slot (required_dns_records : list DNSRecord.t) (l : DNSRecord.t) :
  (forall r, In r required_dns_records -> DNSRecord.slot r <> DNSRecord.slot l) ->
  Shared.hasDNSRecord required_dns_records l = false
  /\ Shared.hasConflictingDNSRecord required_dns_records l = false.
Proof.
  intros Hslot.
  assert (forall r, In r required_dns_records -> DNSRecord.same_slot r l = false) as H.
  { intros r Hr. destruct (DNSRecord.same_slot r l) eqn:E; [|reflexivity].
    apply same_slot_iff_slot in E. now elim (Hslot r Hr). }
  split; apply not_true_is_false; intros Hex; apply existsb_exists in Hex;
    destruct Hex as (r & Hr & Hb); rewrite (H r Hr) in Hb; discriminate.
Qed.

(** C3: [hasDNSRecord] is true exactly when the required set holds a record
    with the same type, name, content and proxied flag; the TTL of neither
    side is looked at. *)
Theorem hasDNSRecord_compares_all_but_ttl
    (required_dns_records : list DNSRecord.t) (record : DNSRecord.t) :
  (Shared.hasDNSRecord required_dns_records record = true
   <-> exists r, In r required_dns_records
         /\ DNSRecord.type r = DNSRecord.type record
         /\ DNSRecord.name r = DNSRecord.name record
         /\ DNSRecord.content r = DNSRecord.content record
         /\ DNSRecord.proxied r = DNSRecord.proxied record)
  /\ (forall n : Z,
        Shared.hasDNSRecord required_dns_records (DNSRecord.with_ttl n record)
        = Shared.hasDNSRecord required_dns_records record)
  /\ (forall n : Z,
        Shared.hasDNSRecord (map (DNSRecord.with_ttl n) required_dns_records) record
        = Shared.hasDNSRecord required_dns_records record).
Proof.
  split; [|split].
  - rewrite hasDNSRecord_true. unfold Command.exact_match.
    split; intros (r & Hr & H); exists r; (split; [exact Hr|]).
    + apply andb_true_iff in H. destruct H as [Hs Hv].
      apply same_slot_true in Hs. apply same_value_true in Hv. tauto.
    + apply andb_true_iff. rewrite same_slot_true, same_value_true. tauto.
  - intros n. reflexivity.
  - intros n. unfold Shared.hasDNSRecord.
    induction required_dns_records as [|r rest IH]; [reflexivity|].
    cbn [map existsb]. rewrite IH. reflexivity.
Qed.

(** Two records that differ in nothing but the TTL. *)
Lemma ttl_is_not_compared :
  Shared.hasDNSRecord [Sample.www] (DNSRecord.with_ttl 300 Sample.www) = true
  /\ DNSRecord.with_ttl 300 Sample.www <> Sample.www.
Proof. split; [reflexivity | discriminate]. Qed.

(* ===================================================================== *)
(** ** The classification *)
(* ===================================================================== *)

(** Every live record gets one row of the table, in order. *)
Lemma table_rows
    (hasDNSRecord hasConflictingDNSRecord : list DNSRecord.t -> DNSRecord.t -> bool)
    (required_dns_records dns_records : list DNSRecord.t) :
  map snd (Dns.table (Dns.classify hasDNSRecord hasConflictingDNSRecord
                        required_dns_records dns_records))
  = dns_records.
Proof.
  unfold Dns.classify.
  set (step := Dns.classify_line hasDNSRecord hasConflictingDNSRecord required_dns_records).
  enough (forall acc, map snd (Dns.table (fold_left step dns_records acc))
                      = map snd (Dns.table acc) ++ dns_records) as H
      by apply (H {| Dns.properly_proxied := []; Dns.conflicts := []; Dns.table := [] |}).
  induction dns_records as [|l rest IH]; intros acc; cbn [fold_left].
  - now rewrite app_nil_r.
  - rewrite IH. unfold step, Dns.classify_line.
    destruct (hasDNSRecord required_dns_records l);
      [|destruct (hasConflictingDNSRecord required_dns_records l)];
      cbn [Dns.table]; rewrite map_app, <- app_assoc; reflexivity.
Qed.

(** C2: the loop puts every live record into exactly one of the three
    buckets (properly proxied, conflicting, unrelated), and a live record
    whose (type, name) no required record has goes to the unrelated one. *)
Theorem live_records_partitioned (required_dns_records dns_records : list DNSRecord.t) :
  let t := Command.classify required_dns_records dns_records in
  map snd (Dns.table t) = dns_records
  /\ Permutation
       (Dns.properly_proxied t ++ Dns.conflicts t ++ Dns.unrelated t)
       dns_records
  /\ (forall l, In l dns_records ->
        (In l (Dns.properly_proxied t)
         /\ ~ In l (Dns.conflicts t) /\ ~ In l (Dns.unrelated t))
        \/ (~ In l (Dns.properly_proxied t)
            /\ In l (Dns.conflicts t) /\ ~ In l (Dns.unrelated t))
        \/ (~ In l (Dns.properly_proxied t)
            /\ ~ In l (Dns.conflicts t) /\ In l (Dns.unrelated t)))
  /\ (forall l, In l dns_records ->
        (forall r, In r required_dns_records ->
           DNSRecord.slot r <> DNSRecord.slot l) ->
        In l (Dns.unrelated t)
        /\ ~ In l (Dns.properly_proxied t) /\ ~ In l (Dns.conflicts t)).
Proof.
  intros t. unfold t, Command.classify.
  split; [apply table_rows|].
  split; [apply buckets_permutation|].
  split.
  - intros l Hl.
    rewrite in_properly_proxied, in_conflicts, in_unrelated.
    destruct (Shared.hasDNSRecord required_dns_records l);
      [|destruct (Shared.hasConflictingDNSRecord required_dns_records l)].
    + left. repeat split; trivial; intros (_ & H & _); discriminate H.
    + right; left. repeat split; trivial.
      * intros (_ & H); discriminate H.
      * intros (_ & _ & H); discriminate H.
    + right; right. repeat split; trivial.
      * intros (_ & H); discriminate H.
      * intros (_ & _ & H); discriminate H.
  - intros l Hl Hslot.
    destruct (foreign_slot _ Hslot) as [Hno Hnc].
    rewrite in_properly_proxied, in_conflicts, in_unrelated.
    repeat split; trivial.
    + intros (_ & H). congruence.
    + intros (_ & _ & H). congruence.
Qed.

(** An MX record is left alone when the Page Rules only need a CNAME. *)
Lemma mail_is_unrelated :
  Dns.unrelated (Command.classify [Sample.www] [Sample.www_old; Sample.mail])
  = [Sample.mail].
Proof. reflexivity. Qed.

(** Line 88 in terms of the live records: the handler is satisfied as soon
    as one live record is properly proxied and none conflicts. *)
Lemma fullyMet_true_iff
    (hasDNSRecord hasConflictingDNSRecord : list DNSRecord.t -> DNSRecord.t -> bool)
    (required_dns_records dns_records : list DNSRecord.t) :
  Dns.fullyMet hasDNSRecord hasConflictingDNSRecord required_dns_records dns_records = true
  <-> (exists l, In l dns_records /\ hasDNSRecord required_dns_records l = true)
      /\ (forall l, In l dns_records ->
            hasDNSRecord required_dns_records l = false ->
            hasConflictingDNSRecord required_dns_records l = false).
Proof.
  unfold Dns.fullyMet.
  rewrite andb_true_iff, negb_true_iff, will_not_work_false, Nat.ltb_lt.
  split; [tauto|]. intros H. split; [|exact H].
  destruct H as [(l & Hl & _) _]. destruct dns_records; [easy | cbn; lia].
Qed.

(** Without Page Rules nothing is required, and still the handler finds
    fault with a zone that holds a record. *)
Lemma no_page_rules_still_complains :
  Command.fullyMet [] [Sample.mail] = false
  /\ Command.fullyMet_spec [] [Sample.mail] = true.
Proof. split; reflexivity. Qed.

(** C1: with two required records of which the live records serve only
    one, the handler still takes the branch of line 125 and congratulates,
    although the other required record has no matching live record. *)
Theorem congratulated_on_partial_match :
  Command.fullyMet [Sample.www; Sample.shop] [Sample.www] = true
  /\ Command.fullyMet_spec [Sample.www; Sample.shop] [Sample.www] = false
  /\ Command.missing [Sample.www; Sample.shop] [Sample.www] = [Sample.shop]
  /\ forall user,
       Dns.run (Command.reconcile Sample.zone [Sample.www] [Sample.www; Sample.shop]) user
       = [Dns.console_log "Current DNS records:";
          Dns.table_output [(Dns.green, Sample.www)];
          Dns.console_log EmptyString;
          Dns.console_log Dns.congrats].
Proof. repeat split. Qed.

(** When the spec's condition holds of a non-empty required set, the
    handler agrees. *)
Lemma fullyMet_spec_fullyMet (required_dns_records dns_records : list DNSRecord.t) :
  required_dns_records <> [] ->
  Command.fullyMet_spec required_dns_records dns_records = true ->
  Command.fullyMet required_dns_records dns_records = true.
Proof.
  intros Hne Hspec. apply andb_true_iff in Hspec. destruct Hspec as [Hall Hnone].
  apply fullyMet_true_iff. split.
  - destruct required_dns_records as [|r rest]; [now elim Hne|].
    cbn in Hall. apply andb_true_iff in Hall. destruct Hall as [Hr _].
    apply existsb_exists in Hr. destruct Hr as (l & Hl & Hm).
    exists l. split; [exact Hl|]. apply hasDNSRecord_true.
    exists r. split; [now left | exact Hm].
  - intros l Hl Hno. rewrite forallb_forall in Hnone.
    specialize (Hnone l Hl). rewrite Hno in Hnone.
    now apply negb_true_iff in Hnone.
Qed.

(* ===================================================================== *)
(** ** Scenarios *)
(* ===================================================================== *)

(** C8: with the one required record for www.example.com and no live
    record at all, nothing is properly proxied, nothing conflicts, the
    record is missing and the handler does not congratulate; it deletes
    nothing and, once the user confirms, creates exactly that record.  The
    "required" branch of the switch would do the same. *)
Theorem scenario_no_live_records (val : string) (user : Dns.answers) :
  let t := Command.classify [Sample.www] [] in
  let trace := Dns.run (Command.reconcile val [] [Sample.www]) user in
  Command.fullyMet [Sample.www] [] = false
  /\ Dns.properly_proxied t = []
  /\ Dns.conflicts t = []
  /\ Command.missing [Sample.www] [] = [Sample.www]
  /\ Dns.deleted trace = []
  /\ Dns.created trace
     = (if Dns.confirmCreateIntent user then [Sample.www] else [])
  /\ Dns.mutations trace
     = (if Dns.confirmCreateIntent user
        then [Dns.createTheseDNSRecords val [Sample.www]] else [])
  /\ Dns.mutations (Dns.run (Dns.remediate val [] [Sample.www] t Dns.required) user)
     = [Dns.deleteTheseDNSRecords val [];
        Dns.createTheseDNSRecords val [Sample.www]].
Proof.
  cbv zeta. unfold Command.reconcile, Dns.reconcile. cbn.
  destruct (Dns.confirmCreateIntent user); repeat split.
Qed.

(** C7, as the claim has it, fails: the zone holds an exact match of the
    required record for www.example.com and, under another name, a record
    that conflicts with the one required for shop.example.com.  The handler
    is not satisfied; "Replace them all" deletes the matching record and
    creates it again, and "Replace only the required ones" creates it
    although it exists. *)
Lemma exact_match_replaced_anyway :
  Command.exact_match Sample.www Sample.www = true
  /\ Command.fullyMet [Sample.www; Sample.shop] [Sample.www; Sample.shop_unproxied]
     = false
  /\ Dns.deleted (Dns.run (Command.reconcile Sample.zone
                             [Sample.www; Sample.shop_unproxied]
                             [Sample.www; Sample.shop])
                    (Sample.picks Dns.all))
     = [Sample.www; Sample.shop_unproxied]
  /\ Dns.created (Dns.run (Command.reconcile Sample.zone
                             [Sample.www; Sample.shop_unproxied]
                             [Sample.www; Sample.shop])
                    (Sample.picks Dns.all))
     = [Sample.www; Sample.shop]
  /\ Dns.created (Dns.run (Command.reconcile Sample.zone
                             [Sample.www; Sample.shop_unproxied]
                             [Sample.www; Sample.shop])
                    (Sample.picks Dns.required))
     = [Sample.www; Sample.shop].
Proof. repeat split. Qed.

(** C7, amended: take a required record with an exact match among the live
    records.  When every required record has such a match and no live
    record conflicts, the handler congratulates, as the spec would have it,
    and makes no deletion and no creation, whatever the user would answer.
    When some live record conflicts, the handler is not satisfied, and
    "Replace them all" deletes exactly the live records, the matching one
    among them, and creates exactly the required records, the matched one
    among them. *)
Theorem exact_match_and_no_conflict
    (val : string) (required_dns_records dns_records : list DNSRecord.t)
    (r l : DNSRecord.t) :
  In r required_dns_records ->
  In l dns_records ->
  Command.exact_match r l = true ->
  let t := Command.classify required_dns_records dns_records in
  ((forall r', In r' required_dns_records ->
      exists l', In l' dns_records /\ Command.exact_match r' l' = true) ->
   Dns.conflicts t = [] ->
   Command.fullyMet required_dns_records dns_records = true
   /\ Command.fullyMet_spec required_dns_records dns_records = true
   /\ forall user,
        Dns.mutations
          (Dns.run (Command.reconcile val dns_records required_dns_records) user)
        = [])
  /\ (Dns.conflicts t <> [] ->
      Command.fullyMet required_dns_records dns_records = false
      /\ forall user, Dns.whichApproach user = Dns.all ->
           Dns.deleted
             (Dns.run (Command.reconcile val dns_records required_dns_records) user)
           = dns_records
           /\ Dns.created
                (Dns.run (Command.reconcile val dns_records required_dns_records) user)
              = required_dns_records
           /\ In l (Dns.deleted
                      (Dns.run (Command.reconcile val dns_records required_dns_records)
                         user))
           /\ In r (Dns.created
                      (Dns.run (Command.reconcile val dns_records required_dns_records)
                         user))).
Proof.
  intros Hr Hl Hm t.
  assert (In l (Dns.properly_proxied t)) as Hp.
  { apply in_properly_proxied. split; [exact Hl|].
    apply hasDNSRecord_true. now exists r. }
  assert (Dns.will_not_work t = (0 <? List.length (Dns.conflicts t))) as Hw.
  { unfold Dns.will_not_work. destruct (Dns.properly_proxied t); [easy | reflexivity]. }
  assert (dns_records <> []) as Hne by (intros ->; contradiction).
  assert ((0 <? List.length dns_records) = true) as Hlen.
  { apply Nat.ltb_lt. destruct dns_records; [now elim Hne | cbn; lia]. }
  split.
  - intros Hall Hc. split; [|split].
    + unfold Command.fullyMet, Dns.fullyMet.
      fold (Command.classify required_dns_records dns_records). fold t.
      now rewrite Hlen, Hw, Hc.
    + unfold Command.fullyMet_spec. apply andb_true_iff. split.
      * apply forallb_forall. intros r' Hr'. apply existsb_exists.
        destruct (Hall r' Hr') as (l' & Hl' & Hm'). now exists l'.
      * apply forallb_forall. intros x Hx.
        destruct (Shared.hasDNSRecord required_dns_records x) eqn:Hyes; [reflexivity|].
        destruct (Shared.hasConflictingDNSRecord required_dns_records x) eqn:Hno;
          [|reflexivity].
        assert (In x (Dns.conflicts t)) as Hin by now apply in_conflicts.
        rewrite Hc in Hin. contradiction.
    + intros user. unfold Command.reconcile. rewrite mutations_without_prompt.
      * destruct dns_records; [now elim Hne | reflexivity].
      * rewrite asked_which_approach.
        fold (Command.classify required_dns_records dns_records). fold t.
        rewrite Hw, Hc. intros [_ H]. discriminate H.
  - intros Hc.
    assert ((0 <? List.length (Dns.conflicts t)) = true) as Hpos.
    { apply Nat.ltb_lt. destruct (Dns.conflicts t); [now elim Hc | cbn; lia]. }
    split.
    + unfold Command.fullyMet, Dns.fullyMet.
      fold (Command.classify required_dns_records dns_records). fold t.
      now rewrite Hlen, Hw, Hpos.
    + intros user Hall. unfold Command.reconcile.
      rewrite <- deleted_mutations, <- created_mutations.
      rewrite mutations_after_prompt.
      * rewrite Hall. cbn. rewrite !app_nil_r. now repeat split.
      * apply asked_which_approach. split; [exact Hne|].
        fold (Command.classify required_dns_records dns_records). fold t.
        now rewrite Hw.
Qed.

Lemma exact_match_and_no_conflict_witness :
  Command.fullyMet [Sample.www] [Sample.www; Sample.mail] = true.
Proof.
  refine (proj1 (proj1 (exact_match_and_no_conflict Sample.zone
            [Sample.www] [Sample.www; Sample.mail] Sample.www Sample.www
            _ _ _) _ _)).
  - simpl. left. reflexivity.
  - simpl. left. reflexivity.
  - reflexivity.
  - intros r' [<-|[]]. exists Sample.www. split; [left; reflexivity | reflexivity].
  - reflexivity.
Defined.

(* ===================================================================== *)
(** ** Deriving the required records *)
(* ===================================================================== *)

Lemma same_slot_false (r l : DNSRecord.t) :
  DNSRecord.same_slot r l = false <-> DNSRecord.slot r <> DNSRecord.slot l.
Proof.
  rewrite <- same_slot_iff_slot. now destruct (DNSRecord.same_slot r l).
Qed.

Lemma slot_taken (kept : list DNSRecord.t) (r : DNSRecord.t) :
  existsb (fun k => DNSRecord.same_slot k r) kept = true
  <-> In (DNSRecord.slot r) (map DNSRecord.slot kept).
Proof.
  rewrite existsb_exists, in_map_iff.
  split; intros (k & H1 & H2); exists k.
  - split; [now apply same_slot_iff_slot | exact H1].
  - split; [exact H2 | now apply same_slot_iff_slot].
Qed.

Lemma keep_first_cases (kept : list DNSRecord.t) (r : DNSRecord.t) :
  (In (DNSRecord.slot r) (map DNSRecord.slot kept) /\ Shared.keep_first kept r = kept)
  \/ (~ In (DNSRecord.slot r) (map DNSRecord.slot kept)
      /\ Shared.keep_first kept r = kept ++ [r]).
Proof.
  unfold Shared.keep_first.
  destruct (existsb (fun k => DNSRecord.same_slot k r) kept) eqn:E.
  - left. split; [now apply slot_taken | reflexivity].
  - right. split; [|reflexivity]. rewrite <- slot_taken, E. discriminate.
Qed.

(** Deduplication never puts two records into one slot. *)
Lemma keep_first_NoDup (records kept : list DNSRecord.t) :
  NoDup (map DNSRecord.slot kept) ->
  NoDup (map DNSRecord.slot (fold_left Shared.keep_first records kept)).
Proof.
  revert kept. induction records as [|r rest IH]; intros kept Hk; [exact Hk|].
  cbn [fold_left]. apply IH.
  destruct (keep_first_cases kept r) as [[_ ->]|[Hfree ->]]; [exact Hk|].
  rewrite map_app. cbn [map].
  apply Permutation_NoDup with (l := DNSRecord.slot r :: map DNSRecord.slot kept).
  - apply Permutation_cons_append.
  - now constructor.
Qed.

(** What is kept stays, in place. *)
Lemma keep_first_grows (records kept : list DNSRecord.t) :
  exists more, fold_left Shared.keep_first records kept = kept ++ more.
Proof.
  revert kept. induction records as [|r rest IH]; intros kept.
  - exists []. cbn. now rewrite app_nil_r.
  - cbn [fold_left].
    destruct (keep_first_cases kept r) as [[_ ->]|[_ ->]]; [apply IH|].
    destruct (IH (kept ++ [r])) as [more ->].
    exists (r :: more). now rewrite <- app_assoc.
Qed.

(** A record of the result was kept before, or is the first of its slot
    among the records fed in. *)
Lemma keep_first_origin (records kept : list DNSRecord.t) (r : DNSRecord.t) :
  In r (fold_left Shared.keep_first records kept) ->
  In r kept
  \/ exists before after,
       records = before ++ r :: after
       /\ forall x, In x (kept ++ before) -> DNSRecord.slot x <> DNSRecord.slot r.
Proof.
  revert kept. induction records as [|x rest IH]; intros kept Hin; [now left|].
  cbn [fold_left] in Hin. apply IH in Hin.
  destruct (keep_first_cases kept x) as [[Htaken Hk]|[Hfree Hk]]; rewrite Hk in Hin.
  - destruct Hin as [Hin|(before & after & -> & Hfirst)]; [now left|].
    right. exists (x :: before), after. split; [reflexivity|].
    intros y Hy. apply in_app_or in Hy. destruct Hy as [Hy|[<-|Hy]].
    + apply Hfirst. apply in_or_app. now left.
    + apply in_map_iff in Htaken. destruct Htaken as (k & Hslot & Hkin).
      rewrite <- Hslot. apply Hfirst. apply in_or_app. now left.
    + apply Hfirst. apply in_or_app. now right.
  - destruct Hin as [Hin|(before & after & -> & Hfirst)].
    + apply in_app_or in Hin. destruct Hin as [Hin|[<-|[]]]; [now left|].
      right. exists [], rest. split; [reflexivity|].
      rewrite app_nil_r. intros y Hy Heq. apply Hfree. rewrite <- Heq.
      now apply in_map.
    + right. exists (x :: before), after. split; [reflexivity|].
      intros y Hy. apply Hfirst. rewrite <- app_assoc. exact Hy.
Qed.

(** Every slot fed in is served by the result. *)
Lemma keep_first_covers (records kept : list DNSRecord.t) (x : DNSRecord.t) :
  In x records ->
  In (DNSRecord.slot x)
     (map DNSRecord.slot (fold_left Shared.keep_first records kept)).
Proof.
  revert kept. induction records as [|r rest IH]; intros kept Hin; [contradiction|].
  cbn [fold_left]. destruct Hin as [->|Hin]; [|now apply IH].
  destruct (keep_first_grows rest (Shared.keep_first kept x)) as [more ->].
  rewrite map_app. apply in_or_app. left.
  destruct (keep_first_cases kept x) as [[Htaken ->]|[_ ->]]; [exact Htaken|].
  rewrite map_app. apply in_or_app. right. now left.
Qed.

(** C4: whatever record a Page Rule asks for, the derived set holds at most
    one record per (type, name); each record in it is the one of the first
    rule, in the order given, that asks for that slot; every rule's slot is
    served; and of two rules for one hostname the first rule's record, with
    its proxied flag, is the one kept. *)
Theorem one_required_record_per_slot
    (requiredDNSRecordFor : PageRule.t -> DNSRecord.t) (pagerules : list PageRule.t) :
  let required_dns_records :=
    Shared.buildRequiredDNSRecordsForPagerules requiredDNSRecordFor pagerules in
  NoDup (map DNSRecord.slot required_dns_records)
  /\ (forall r, In r required_dns_records ->
        exists earlier rule later,
          pagerules = earlier ++ rule :: later
          /\ r = requiredDNSRecordFor rule
          /\ forall e, In e earlier ->
               DNSRecord.slot (requiredDNSRecordFor e) <> DNSRecord.slot r)
  /\ (forall rule, In rule pagerules ->
        exists r, In r required_dns_records
                  /\ DNSRecord.slot r = DNSRecord.slot (requiredDNSRecordFor rule))
  /\ (forall first second,
        DNSRecord.slot (requiredDNSRecordFor first)
        = DNSRecord.slot (requiredDNSRecordFor second) ->
        Shared.buildRequiredDNSRecordsForPagerules requiredDNSRecordFor [first; second]
        = [requiredDNSRecordFor first]).
Proof.
  intros required_dns_records.
  unfold required_dns_records, Shared.buildRequiredDNSRecordsForPagerules.
  split; [|split; [|split]].
  - apply keep_first_NoDup. constructor.
  - intros r Hr. apply keep_first_origin in Hr.
    destruct Hr as [[]|(before & after & Heq & Hfirst)].
    apply map_eq_app in Heq. destruct Heq as (earlier & tail & -> & <- & Htail).
    apply map_eq_cons in Htail. destruct Htail as (rule & later & -> & <- & _).
    exists earlier, rule, later. repeat split.
    intros e He. apply Hfirst. cbn [app]. now apply in_map.
  - intros rule Hrule.
    pose proof (keep_first_covers (map requiredDNSRecordFor pagerules) []
                  (requiredDNSRecordFor rule) (in_map _ _ _ Hrule)) as H.
    apply in_map_iff in H. destruct H as (r & Hslot & Hr). now exists r.
  - intros first second Hslot. cbn. unfold Shared.keep_first at 1. cbn.
    apply same_slot_iff_slot in Hslot. now rewrite Hslot.
Qed.

(* ===================================================================== *)
(** ** Redirects and Page Rules *)
(* ===================================================================== *)

(** Behind a hostname pattern, the path of the combined pattern is the
    fragment that was appended. *)
Lemma path_of_append (base fragment : string) :
  Shared.has_slash base = false ->
  Shared.valid_path_fragment fragment = true ->
  Shared.path_of (base ++ fragment) = fragment.
Proof.
  intros Hbase Hfrag. induction base as [|c base IH]; cbn.
  - destruct fragment as [|c rest]; [reflexivity|].
    cbn in Hfrag |- *. now rewrite Hfrag.
  - cbn in Hbase. apply orb_false_iff in Hbase. destruct Hbase as [Hc Hrest].
    rewrite Hc. now apply IH.
Qed.

Lemma kind_of_status_code_of (k : Redirect.kind) :
  Shared.kind_of_status_code (Shared.status_code_of k) = Some k.
Proof. now destruct k. Qed.

(** A redirect whose [from] is no path fragment is refused. *)
Lemma bare_from_is_refused (base : string) :
  Shared.convertRedirectToPageRule
    (Redirect.make "old" "https://example.com/new" Redirect.forwarding) base
  = inl (Shared.invalid_from "old").
Proof. reflexivity. Qed.

(** C9: a redirect whose [from] is a path fragment and whose [to] is not
    empty converts, under a hostname pattern, to a Page Rule that converts
    back to that very redirect: same [from], same [to], same [type]. *)
Theorem redirect_round_trip (redirect : Redirect.t) (domain : string) :
  Shared.has_slash domain = false ->
  Shared.valid_path_fragment (Redirect.from redirect) = true ->
  Shared.valid_target (Redirect.to redirect) = true ->
  exists pagerule,
    Shared.convertRedirectToPageRule redirect domain = inr pagerule
    /\ exists back,
         Shared.convertPageRulesToRedirects [pagerule] = [Shared.redirect_entry back]
         /\ Redirect.from back = Redirect.from redirect
         /\ Redirect.to back = Redirect.to redirect
         /\ Redirect.type back = Redirect.type redirect.
Proof.
  intros Hdomain Hfrom Hto.
  unfold Shared.convertRedirectToPageRule. rewrite Hfrom, Hto. cbn [negb].
  eexists. split; [reflexivity|].
  unfold Shared.convertPageRulesToRedirects, Shared.entry_of_action. cbn.
  rewrite kind_of_status_code_of, path_of_append by assumption.
  eexists. split; [reflexivity|]. now repeat split.
Qed.

Lemma redirect_round_trip_witness :
  exists pagerule,
    Shared.convertRedirectToPageRule Sample.old_to_new "*example.com" = inr pagerule
    /\ exists back,
         Shared.convertPageRulesToRedirects [pagerule] = [Shared.redirect_entry back]
         /\ Redirect.from back = "/old/*"%string
         /\ Redirect.to back = "https://example.com/new"%string
         /\ Redirect.type back = Redirect.forwarding.
Proof.
  apply (redirect_round_trip Sample.old_to_new "*example.com"); reflexivity.
Defined.

(* ===================================================================== *)
(** ** What the [dns] handler never does *)
(* ===================================================================== *)

Section Restraint.

Variables hasDNSRecord hasConflictingDNSRecord : list DNSRecord.t -> DNSRecord.t -> bool.
Variable val : string.
Variables dns_records required_dns_records : list DNSRecord.t.
Variable user : Dns.answers.

Let t := Dns.classify hasDNSRecord hasConflictingDNSRecord required_dns_records dns_records.
Let trace :=
  Dns.run (Dns.reconcile hasDNSRecord hasConflictingDNSRecord val
             dns_records required_dns_records) user.


(** The mutations of a run, case by case. *)
Lemma mutations_cases :
  Dns.mutations trace
  = match dns_records with
    | [] =>
        if Dns.confirmCreateIntent user
        then [Dns.createTheseDNSRecords val required_dns_records]
        else []
    | _ :: _ =>
        if Dns.will_not_work t then
          match Dns.whichApproach user with
          | Dns.all =>
              [Dns.deleteTheseDNSRecords val dns_records;
               Dns.createTheseDNSRecords val required_dns_records]
          | Dns.required =>
              [Dns.deleteTheseDNSRecords val (Dns.conflicts t);
               Dns.createTheseDNSRecords val required_dns_records]
          | Dns.skip => []
          end
        else []
    end.
Proof.
  unfold trace, Dns.reconcile. fold t.
  destruct dns_records as [|l rest]; cbn.
  - now destruct (Dns.confirmCreateIntent user).
  - destruct (Dns.will_not_work t); cbn; [|reflexivity].
    destruct (Dns.whichApproach user); reflexivity.
Qed.

End Restraint.

Lemma mutation_in_mutations (c : Dns.call) (trace : list Dns.call) :
  Dns.is_mutation c = true -> In c trace -> In c (Dns.mutations trace).
Proof. intros Hm Hin. apply filter_In. now split. Qed.

(** X1: a call of [deleteTheseDNSRecords] is only made after the user was
    asked how to proceed and chose one of the two replacing answers; it is
    made on the zone at hand and names live records only. *)
Theorem deletes_only_on_request
    (hasDNSRecord hasConflictingDNSRecord : list DNSRecord.t -> DNSRecord.t -> bool)
    (val : string) (dns_records required_dns_records : list DNSRecord.t)
    (user : Dns.answers) (zone : string) (records : list DNSRecord.t) :
  In (Dns.deleteTheseDNSRecords zone records)
     (Dns.run (Dns.reconcile hasDNSRecord hasConflictingDNSRecord val
                 dns_records required_dns_records) user) ->
  In (Dns.inquirer_prompt "whichApproach")
     (Dns.run (Dns.reconcile hasDNSRecord hasConflictingDNSRecord val
                 dns_records required_dns_records) user)
  /\ Dns.whichApproach user <> Dns.skip
  /\ zone = val
  /\ incl records dns_records.
Proof.
  intros Hin. apply mutation_in_mutations in Hin; [|reflexivity].
  rewrite asked_which_approach.
  rewrite mutations_cases in Hin.
  destruct dns_records as [|l rest] eqn:Hlive.
  - destruct (Dns.confirmCreateIntent user); cbn in Hin;
      repeat (destruct Hin as [Hin|Hin]; [discriminate Hin|]); contradiction.
  - rewrite <- Hlive in *.
    destruct (Dns.will_not_work _) eqn:Hw; [|contradiction].
    assert (dns_records <> []) as Hne by (rewrite Hlive; discriminate).
    destruct (Dns.whichApproach user); cbn in Hin.
    + destruct Hin as [Hin|[Hin|[]]]; [|discriminate Hin].
      injection Hin as <- <-. repeat split; try assumption; try discriminate.
      intros x Hx. now apply in_conflicts in Hx.
    + destruct Hin as [Hin|[Hin|[]]]; [|discriminate Hin].
      injection Hin as <- <-. repeat split; try assumption; try discriminate.
      apply incl_refl.
    + contradiction.
Qed.

Lemma deletes_only_on_request_witness :
  In (Dns.deleteTheseDNSRecords Sample.zone [Sample.www_old])
     (Dns.run (Command.reconcile Sample.zone [Sample.www_old; Sample.mail]
                 [Sample.www])
        (Sample.picks Dns.required))
  /\ incl [Sample.www_old] [Sample.www_old; Sample.mail].
Proof.
  assert (In (Dns.deleteTheseDNSRecords Sample.zone [Sample.www_old])
            (Dns.run (Command.reconcile Sample.zone
                        [Sample.www_old; Sample.mail] [Sample.www])
               (Sample.picks Dns.required))) as H.
  { vm_compute. do 7 right. left. reflexivity. }
  split; [exact H|].
  exact (proj2 (proj2 (proj2 (deletes_only_on_request
           Shared.hasDNSRecord Shared.hasConflictingDNSRecord Sample.zone
           [Sample.www_old; Sample.mail] [Sample.www]
           (Sample.picks Dns.required) Sample.zone [Sample.www_old] H)))).
Defined.

(** On an array of live records, a call of [createTheseDNSRecords] is made
    on the zone at hand with the required records, after a replacing answer
    or, for an empty array, after the confirmation. *)
Lemma array_creates_only_what_is_required
    (hasDNSRecord hasConflictingDNSRecord : list DNSRecord.t -> DNSRecord.t -> bool)
    (val : string) (dns_records required_dns_records : list DNSRecord.t)
    (user : Dns.answers) (zone : string) (records : list DNSRecord.t) :
  In (Dns.createTheseDNSRecords zone records)
     (Dns.run (Dns.reconcile hasDNSRecord hasConflictingDNSRecord val
                 dns_records required_dns_records) user) ->
  zone = val
  /\ records = required_dns_records
  /\ ((In (Dns.inquirer_prompt "whichApproach")
          (Dns.run (Dns.reconcile hasDNSRecord hasConflictingDNSRecord val
                      dns_records required_dns_records) user)
       /\ Dns.whichApproach user <> Dns.skip)
      \/ (dns_records = [] /\ Dns.confirmCreateIntent user = true)).
Proof.
  intros Hin. apply mutation_in_mutations in Hin; [|reflexivity].
  rewrite asked_which_approach.
  rewrite mutations_cases in Hin.
  destruct dns_records as [|l rest] eqn:Hlive.
  - destruct (Dns.confirmCreateIntent user); cbn in Hin; [|contradiction].
    destruct Hin as [Hin|[]]. injection Hin as <- <-.
    repeat split. now right.
  - rewrite <- Hlive in *.
    destruct (Dns.will_not_work _) eqn:Hw; [|contradiction].
    assert (dns_records <> []) as Hne by (rewrite Hlive; discriminate).
    destruct (Dns.whichApproach user); cbn in Hin;
      [| |contradiction];
      (destruct Hin as [Hin|[Hin|[]]]; [discriminate Hin|]);
      injection Hin as <- <-; repeat split; left; repeat split;
      try assumption; discriminate.
Qed.

(** What line 64 makes of the value of line 57. *)
Lemma fetched_array
    (hasDNSRecord hasConflictingDNSRecord : list DNSRecord.t -> DNSRecord.t -> bool)
    (val : string) (records required_dns_records : list DNSRecord.t) :
  Fetched.reconcile hasDNSRecord hasConflictingDNSRecord val (Some records)
    required_dns_records
  = Dns.reconcile hasDNSRecord hasConflictingDNSRecord val records required_dns_records.
Proof. destruct records; reflexivity. Qed.

Lemma fetched_false
    (hasDNSRecord hasConflictingDNSRecord : list DNSRecord.t -> DNSRecord.t -> bool)
    (val : string) (required_dns_records : list DNSRecord.t) :
  Fetched.reconcile hasDNSRecord hasConflictingDNSRecord val None required_dns_records
  = Dns.reconcile hasDNSRecord hasConflictingDNSRecord val [] required_dns_records.
Proof. reflexivity. Qed.

(** X2: a call of [createTheseDNSRecords] is made on the zone at hand with
    the required records and nothing else, and only after the user chose a
    replacing answer, or confirmed the creation when the reply held no
    record or reported failure, in which case the zone may well hold
    records. *)
Theorem creates_only_what_is_required
    (hasDNSRecord hasConflictingDNSRecord : list DNSRecord.t -> DNSRecord.t -> bool)
    (val : string) (dns_records : option (list DNSRecord.t))
    (required_dns_records : list DNSRecord.t)
    (user : Dns.answers) (zone : string) (records : list DNSRecord.t) :
  In (Dns.createTheseDNSRecords zone records)
     (Dns.run (Fetched.reconcile hasDNSRecord hasConflictingDNSRecord val
                 dns_records required_dns_records) user) ->
  zone = val
  /\ records = required_dns_records
  /\ ((In (Dns.inquirer_prompt "whichApproach")
          (Dns.run (Fetched.reconcile hasDNSRecord hasConflictingDNSRecord val
                      dns_records required_dns_records) user)
       /\ Dns.whichApproach user <> Dns.skip)
      \/ ((dns_records = None \/ dns_records = Some [])
          /\ Dns.confirmCreateIntent user = true)).
Proof.
  intros Hin. destruct dns_records as [live|].
  - rewrite fetched_array in *.
    destruct (array_creates_only_what_is_required _ _ _ _ _ _ _ _ Hin)
      as (Hz & Hr & [H|[Hlive Hyes]]).
    + repeat split; try assumption. now left.
    + repeat split; try assumption. right. split; [right; now rewrite Hlive | exact Hyes].
  - rewrite fetched_false in *.
    destruct (array_creates_only_what_is_required _ _ _ _ _ _ _ _ Hin)
      as (Hz & Hr & [H|[_ Hyes]]).
    + repeat split; try assumption. now left.
    + repeat split; try assumption. right. split; [now left | exact Hyes].
Qed.

Lemma creates_only_what_is_required_witness :
  In (Dns.createTheseDNSRecords Sample.zone [Sample.www])
     (Dns.run (Fetched.reconcile Shared.hasDNSRecord Shared.hasConflictingDNSRecord
                 Sample.zone (Fetched.result_or_false false [Sample.www_old])
                 [Sample.www])
        (Sample.confirms true))
  /\ Sample.zone = Sample.zone /\ [Sample.www] = [Sample.www].
Proof.
  assert (In (Dns.createTheseDNSRecords Sample.zone [Sample.www])
            (Dns.run (Fetched.reconcile Shared.hasDNSRecord
                        Shared.hasConflictingDNSRecord Sample.zone
                        (Fetched.result_or_false false [Sample.www_old])
                        [Sample.www])
               (Sample.confirms true))) as H.
  { vm_compute. do 3 right. left. reflexivity. }
  split; [exact H|].
  pose proof (creates_only_what_is_required
                Shared.hasDNSRecord Shared.hasConflictingDNSRecord Sample.zone
                (Fetched.result_or_false false [Sample.www_old]) [Sample.www]
                (Sample.confirms true) Sample.zone [Sample.www] H)
    as (Hz & Hr & _).
  split; [exact Hz | exact Hr].
Defined.

(* ===================================================================== *)
(** ** The verdict of the [dns] handler *)
(* ===================================================================== *)



(** X4: the verdict does not depend on the order in which the provider
    lists the live records. *)
Theorem verdict_ignores_order
    (hasDNSRecord hasConflictingDNSRecord : list DNSRecord.t -> DNSRecord.t -> bool)
    (required_dns_records dns_records reordered : list DNSRecord.t) :
  Permutation dns_records reordered ->
  Dns.fullyMet hasDNSRecord hasConflictingDNSRecord required_dns_records reordered
  = Dns.fullyMet hasDNSRecord hasConflictingDNSRecord required_dns_records dns_records.
Proof.
  intros Hperm. apply eq_true_iff_eq. rewrite !fullyMet_true_iff.
  assert (forall l, In l dns_records <-> In l reordered) as Hin.
  { intros l. split; apply Permutation_in; [exact Hperm | now symmetry]. }
  split; intros [(l & Hl & Hm) Hc]; (split; [exists l; split; [now apply Hin | exact Hm]|]);
    intros x Hx; apply Hc; now apply Hin.
Qed.

Lemma verdict_ignores_order_witness :
  Permutation [Sample.mail; Sample.www] [Sample.www; Sample.mail]
  /\ Command.fullyMet [Sample.www] [Sample.www; Sample.mail]
     = Command.fullyMet [Sample.www] [Sample.mail; Sample.www].
Proof.
  assert (Permutation [Sample.mail; Sample.www] [Sample.www; Sample.mail]) as H
      by apply perm_swap.
  split; [exact H|].
  exact (verdict_ignores_order Shared.hasDNSRecord Shared.hasConflictingDNSRecord
           [Sample.www] H).
Defined.

(** X5: live records that neither match nor conflict never change the
    verdict, however many of them the zone holds. *)
Theorem verdict_ignores_unrelated_records
    (hasDNSRecord hasConflictingDNSRecord : list DNSRecord.t -> DNSRecord.t -> bool)
    (required_dns_records dns_records others : list DNSRecord.t) :
  (forall l, In l others ->
     hasDNSRecord required_dns_records l = false
     /\ hasConflictingDNSRecord required_dns_records l = false) ->
  Dns.fullyMet hasDNSRecord hasConflictingDNSRecord required_dns_records
    (dns_records ++ others)
  = Dns.fullyMet hasDNSRecord hasConflictingDNSRecord required_dns_records dns_records.
Proof.
  intros Hothers. apply eq_true_iff_eq. rewrite !fullyMet_true_iff.
  split; intros [(l & Hl & Hm) Hc]; split.
  - exists l. split; [|exact Hm].
    apply in_app_or in Hl. destruct Hl as [Hl|Hl]; [exact Hl|].
    destruct (Hothers l Hl) as [Hno _]. congruence.
  - intros x Hx. apply Hc. apply in_or_app. now left.
  - exists l. split; [apply in_or_app; now left | exact Hm].
  - intros x Hx Hno. apply in_app_or in Hx. destruct Hx as [Hx|Hx].
    + now apply Hc.
    + now destruct (Hothers x Hx).
Qed.

Lemma verdict_ignores_unrelated_records_witness :
  Command.fullyMet [Sample.www] ([Sample.www] ++ [Sample.mail])
  = Command.fullyMet [Sample.www] [Sample.www].
Proof.
  apply (verdict_ignores_unrelated_records
           Shared.hasDNSRecord Shared.hasConflictingDNSRecord
           [Sample.www] [Sample.www] [Sample.mail]).
  intros l [<-|[]]. split; reflexivity.
Defined.

(** X6: the table has one row per live record, in the order of the zone;
    a record is green when [hasDNSRecord] accepts it, even if
    [hasConflictingDNSRecord] would accept it too, orange when only the
    latter does, and white otherwise.  The green rows are the properly
    proxied array and the orange rows the conflicts array. *)
Theorem table_colours
    (hasDNSRecord hasConflictingDNSRecord : list DNSRecord.t -> DNSRecord.t -> bool)
    (required_dns_records dns_records : list DNSRecord.t) :
  let t := Dns.classify hasDNSRecord hasConflictingDNSRecord
             required_dns_records dns_records in
  Dns.table t
  = map (fun line =>
           (if hasDNSRecord required_dns_records line then Dns.green
            else if hasConflictingDNSRecord required_dns_records line then Dns.orange
            else Dns.white,
            line))
      dns_records
  /\ map snd (filter (fun row => match fst row with Dns.green => true | _ => false end)
                (Dns.table t))
     = Dns.properly_proxied t
  /\ map snd (filter (fun row => match fst row with Dns.orange => true | _ => false end)
                (Dns.table t))
     = Dns.conflicts t.
Proof.
  intros t.
  assert (Dns.table t
          = map (fun line =>
                   (if hasDNSRecord required_dns_records line then Dns.green
                    else if hasConflictingDNSRecord required_dns_records line
                         then Dns.orange else Dns.white,
                    line))
              dns_records) as Htable.
  { unfold t, Dns.classify.
    set (step := Dns.classify_line hasDNSRecord hasConflictingDNSRecord
                   required_dns_records).
    set (row := fun line : DNSRecord.t => _).
    enough (forall acc, Dns.table (fold_left step dns_records acc)
                        = Dns.table acc ++ map row dns_records) as H
        by apply (H {| Dns.properly_proxied := []; Dns.conflicts := [];
                       Dns.table := [] |}).
    induction dns_records as [|l rest IH]; intros acc; cbn [fold_left map].
    - now rewrite app_nil_r.
    - rewrite IH. unfold step, Dns.classify_line, row.
      destruct (hasDNSRecord required_dns_records l);
        [|destruct (hasConflictingDNSRecord required_dns_records l)];
        cbn [Dns.table]; now rewrite <- app_assoc. }
  split; [exact Htable|].
  rewrite Htable.
  destruct (classify_filters hasDNSRecord hasConflictingDNSRecord
              required_dns_records dns_records) as (Hp & Hc & _).
  fold t in Hp, Hc. rewrite Hp, Hc. clear.
  split; induction dns_records as [|l rest IH]; cbn; try reflexivity;
    destruct (hasDNSRecord required_dns_records l);
    try destruct (hasConflictingDNSRecord required_dns_records l);
    cbn; now rewrite ?IH.
Qed.

(* ===================================================================== *)
(** ** The [domains] command: which descriptions lack a zone *)
(* ===================================================================== *)

Lemma length_append (s1 s2 : string) :
  String.length (s1 ++ s2) = String.length s1 + String.length s2.
Proof. induction s1 as [|c s1 IH]; cbn; [reflexivity | now rewrite IH]. Qed.

Lemma substring_append (s1 s2 : string) :
  String.substring 0 (String.length s1) (s1 ++ s2) = s1.
Proof.
  induction s1 as [|c s1 IH]; cbn.
  - now destruct s2.
  - now rewrite IH.
Qed.

Lemma substr0_append (s1 s2 : string) :
  Domains.substr0 (s1 ++ s2) (Z.of_nat (String.length s1)) = s1.
Proof.
  unfold Domains.substr0.
  destruct (Z.of_nat (String.length s1) <=? 0)%Z eqn:E.
  - apply Z.leb_le in E. destruct s1; [reflexivity | cbn in E; lia].
  - rewrite Nat2Z.id. apply substring_append.
Qed.

(** X7: cutting the last five characters off a file name gives back the
    domain in front of a five-character extension such as .json or .yaml;
    the name itself may be empty. *)
Theorem stem_of_description (domain extension : string) :
  String.length extension = 5 ->
  Domains.stem (domain ++ extension) = domain.
Proof.
  intros Hext. unfold Domains.stem.
  rewrite length_append, Hext.
  replace (Z.of_nat (String.length domain + 5) - 5)%Z
    with (Z.of_nat (String.length domain)) by lia.
  apply substr0_append.
Qed.

Lemma stem_of_description_witness :
  Domains.stem ("example.com" ++ ".yaml") = "example.com"%string.
Proof. apply (stem_of_description "example.com" ".yaml"). reflexivity. Defined.

(** X8: a file name of five characters or fewer has an empty stem, and a
    longer one loses exactly five characters, whatever they are. *)
Theorem stem_length (filename : string) :
  String.length (Domains.stem filename) = String.length filename - 5
  /\ (String.length filename <= 5 -> Domains.stem filename = EmptyString).
Proof.
  unfold Domains.stem, Domains.substr0.
  destruct (Z.of_nat (String.length filename) - 5 <=? 0)%Z eqn:E.
  - apply Z.leb_le in E. split; [cbn; lia | reflexivity].
  - apply Z.leb_gt in E. split; [|lia].
    replace (Z.to_nat (Z.of_nat (String.length filename) - 5))
      with (String.length filename - 5) by lia.
    assert (forall n s, n <= String.length s ->
              String.length (String.substring 0 n s) = n) as Hsub.
    { induction n as [|n IH]; intros s Hn.
      - now destruct s.
      - destruct s as [|c s]; cbn in Hn |- *; [lia|].
        rewrite IH by lia. reflexivity. }
    apply Hsub. lia.
Qed.

Lemma listed_iff (zone_names : list string) (x : string) :
  Domains.listed zone_names x = true <-> In x zone_names.
Proof.
  unfold Domains.listed. rewrite existsb_exists. split.
  - intros (y & Hy & E). apply String.eqb_eq in E. now subst.
  - intros H. exists x. split; [exact H | apply String.eqb_refl].
Qed.

Lemma in_missing_descriptions (contents zone_names : list string) (filename : string) :
  In filename (Domains.missing_descriptions contents zone_names)
  <-> In filename contents
      /\ Domains.starts_with_dot filename = false
      /\ ~ In (Domains.stem filename) zone_names.
Proof.
  unfold Domains.missing_descriptions.
  rewrite filter_In, andb_true_iff, !negb_true_iff.
  rewrite <- (@listed_iff zone_names (Domains.stem filename)).
  now rewrite not_true_iff_false.
Qed.

(** X9: the description of a zone the account already holds is never
    reported as missing, whether it is the .json or the .yaml file, and
    neither is a file whose name starts with a dot; any other file of the
    directory is reported, description or not. *)
Theorem listed_zones_are_not_missing (contents zone_names : list string) :
  (forall zone extension,
     In zone zone_names -> String.length extension = 5 ->
     ~ In (zone ++ extension)%string
          (Domains.missing_descriptions contents zone_names))
  /\ (forall filename,
        Domains.starts_with_dot filename = true ->
        ~ In filename (Domains.missing_descriptions contents zone_names))
  /\ (forall filename,
        In filename contents ->
        Domains.starts_with_dot filename = false ->
        ~ In (Domains.stem filename) zone_names ->
        In filename (Domains.missing_descriptions contents zone_names)).
Proof.
  split; [|split].
  - intros zone extension Hzone Hext Hin.
    apply in_missing_descriptions in Hin. destruct Hin as (_ & _ & Hno).
    apply Hno. unfold Domains.stem. rewrite length_append, Hext.
    replace (Z.of_nat (String.length zone + 5) - 5)%Z
      with (Z.of_nat (String.length zone)) by lia.
    now rewrite substr0_append.
  - intros filename Hdot Hin.
    apply in_missing_descriptions in Hin. destruct Hin as (_ & Hnodot & _).
    congruence.
  - intros filename Hin Hdot Hno. apply in_missing_descriptions. tauto.
Qed.

(** A file that describes nothing is taken for a description all the
    same. *)
Lemma readme_is_taken_for_a_description :
  Domains.missing_descriptions ["README.md"%string] ["example.com"%string]
  = ["README.md"%string]
  /\ Domains.stem "README.md" = "READ"%string.
Proof. split; reflexivity. Qed.

(* ===================================================================== *)
(** ** The [domains] command: what it asks of the provider *)
(* ===================================================================== *)

Section DomainsRuns.

Variable cwd : string.
Variable path_join : list string -> string.
Variable path_relative : string -> string -> string.
Variable existsSync : string -> bool.
Variable load_redirects : string -> option (list Redirect.t).
Variable convertRedirectToPageRule : Redirect.t -> string -> option PageRule.t.
Variable configDir_name : string.
Variable w : Domains.world.

Let each_redirect := Domains.each_redirect convertRedirectToPageRule.
Let zone_posted :=
  Domains.zone_posted cwd path_join load_redirects convertRedirectToPageRule configDir_name.
Let each_missing :=
  Domains.each_missing cwd path_join load_redirects convertRedirectToPageRule configDir_name.
Let accounts_fetched :=
  Domains.accounts_fetched cwd path_join load_redirects convertRedirectToPageRule
    configDir_name.
Let each_zone := Domains.each_zone cwd path_join path_relative existsSync configDir_name.
Let zones_fetched :=
  Domains.zones_fetched cwd path_join path_relative existsSync load_redirects
    convertRedirectToPageRule configDir_name.
Let handler :=
  Domains.handler cwd path_join path_relative existsSync load_redirects
    convertRedirectToPageRule configDir_name.
Let posted_from := Domains.posted_from convertRedirectToPageRule w.
Let posted_for :=
  Domains.posted_for cwd path_join load_redirects convertRedirectToPageRule
    configDir_name w.
Let requested_for :=
  Domains.requested_for cwd path_join load_redirects convertRedirectToPageRule
    configDir_name w.
Let asked_of_provider :=
  Domains.asked_of_provider cwd path_join load_redirects convertRedirectToPageRule
    configDir_name w.

Lemma calls_pagerule_posted (r : Domains.reply (list PageRule.t)) (c : Domains.call) :
  In c (Domains.calls w (Domains.pagerule_posted r)) -> Domains.is_output c = true.
Proof.
  destruct r as [status|[|] result]; cbn; intros H;
    repeat (destruct H as [<-|H]; [reflexivity|]); contradiction.
Qed.

Lemma calls_each_redirect (i j : nat) (zone_id domain : string)
    (redirects : list Redirect.t) (c : Domains.call) :
  In c (Domains.calls w (each_redirect i j zone_id domain redirects)) ->
  Domains.is_output c = true \/ Domains.is_prompt c = true
  \/ posted_from i j zone_id domain redirects c.
Proof.
  unfold each_redirect, posted_from, Domains.posted_from.
  revert j. induction redirects as [|redir rest IH]; intros j;
    cbn -[String.append]; [contradiction|].
  destruct (convertRedirectToPageRule redir ("*" ++ domain)%string) as [pagerule|] eqn:E;
    cbn -[String.append].
  - intros [<-|[<-|[<-|H]]]; [now left | now left | right; now left |].
    apply in_app_or in H. destruct H as [H|H].
    + apply IH in H. destruct H as [H|[H|(k & r & p & Hk & Hc & Ha & ->)]];
        [now left | right; now left |].
      right; right. exists (S k), r, p. repeat split; try assumption.
      now rewrite <- Nat.add_succ_comm.
    + destruct (Domains.answers w (Domains.ask_proceed i j)) eqn:Ha; cbn in H;
        [|contradiction].
      destruct H as [<-|H].
      * right; right. exists 0, redir, pagerule. rewrite Nat.add_0_r. now repeat split.
      * left. now apply calls_pagerule_posted in H.
  - intros [<-|[]]. now left.
Qed.

Lemma calls_zone_posted (i : nat) (filename : string) (c : Domains.call) :
  In c (Domains.calls w
          (zone_posted i filename (Domains.stem filename) (Domains.created_zone w i))) ->
  Domains.is_output c = true \/ Domains.is_prompt c = true
  \/ posted_for i filename c.
Proof.
  unfold zone_posted, Domains.zone_posted, posted_for, Domains.posted_for.
  fold posted_from.
  destruct (Domains.created_zone w i) as [status|[|] created]; cbn.
  - intros H.
    repeat match type of H with
           | In _ (Domains.calls _ (match ?x with _ => _ end)) => destruct x
           end;
      cbn in H; try contradiction; destruct H as [<-|[]]; now left.
  - intros [<-|H]; [now left|].
    destruct (load_redirects (path_join [cwd; configDir_name; filename]))
      as [redirects|] eqn:E.
    + apply calls_each_redirect in H. destruct H as [H|[H|H]];
        [now left | right; now left |].
      right; right. now exists created, redirects.
    + destruct H as [<-|[]]. now left.
  - contradiction.
Qed.

Lemma calls_each_missing (i : nat) (account_id account_name : string)
    (missing : list string) (c : Domains.call) :
  In c (Domains.calls w (each_missing i account_id account_name missing)) ->
  Domains.is_output c = true \/ Domains.is_prompt c = true
  \/ requested_for i account_id missing c.
Proof.
  unfold each_missing, requested_for, Domains.requested_for. fold posted_for.
  revert i. induction missing as [|filename rest IH]; intros i; cbn; [contradiction|].
  intros [<-|H]; [right; now left|].
  apply in_app_or in H. destruct H as [H|H].
  - apply IH in H.
    destruct H as [H|[H|(k & f & Hk & Ha & Hc)]]; [now left | right; now left |].
    right; right. exists (S k), f. rewrite <- Nat.add_succ_comm. now repeat split.
  - destruct (Domains.answers w (Domains.ask_confirmCreate i)) eqn:Ha; cbn in H;
      [|contradiction].
    destruct H as [<-|H].
    + right; right. exists 0, filename. rewrite Nat.add_0_r. repeat split; trivial.
      now left.
    + apply calls_zone_posted in H. destruct H as [H|[H|H]];
        [now left | right; now left |].
      right; right. exists 0, filename. rewrite Nat.add_0_r. repeat split; trivial.
      now right.
Qed.

(** Every confirmed description gets its request. *)
Lemma each_missing_posts (i : nat) (account_id account_name : string)
    (missing : list string) (k : nat) (filename : string) :
  nth_error missing k = Some filename ->
  Domains.answers w (Domains.ask_confirmCreate (i + k)) = true ->
  In (Domains.axios_post_zones (Domains.stem filename) account_id)
     (Domains.calls w (each_missing i account_id account_name missing)).
Proof.
  unfold each_missing.
  revert i k. induction missing as [|f rest IH]; intros i k Hk Ha.
  - now destruct k.
  - cbn. right. apply in_or_app. destruct k as [|k]; cbn in Hk.
    + injection Hk as ->. rewrite Nat.add_0_r in Ha. right. rewrite Ha. cbn. now left.
    + left. apply IH with (k := k); [exact Hk|].
      now rewrite Nat.add_succ_comm.
Qed.

Lemma calls_accounts_fetched (missing : list string) (c : Domains.call) :
  In c (Domains.calls w (accounts_fetched missing (Domains.accounts w))) ->
  Domains.is_output c = true \/ Domains.is_prompt c = true
  \/ exists account others,
       Domains.accounts w = Domains.replied true (account :: others)
       /\ requested_for 0 (Account.id account) missing c.
Proof.
  unfold accounts_fetched, Domains.accounts_fetched.
  destruct (Domains.accounts w) as [[status|]|[|] [|account others]]; cbn;
    try contradiction;
    try (intros H; repeat (destruct H as [<-|H]; [now left|]); contradiction).
  intros [<-|H]; [now left|].
  apply calls_each_missing in H. destruct H as [H|[H|H]];
    [now left | right; now left |].
  right; right. now exists account, others.
Qed.

(** The loops that only print and cache let the calls of what follows
    through. *)
Lemma calls_list_missing (missing : list string) (next : Domains.proc) (c : Domains.call) :
  In c (Domains.calls w (Domains.list_missing path_join configDir_name missing next))
  <-> In c (map (fun li =>
                   Domains.console_log
                     (Domains.missing_entry (Domains.stem li)
                        (path_join [configDir_name; li])))
              missing)
      \/ In c (Domains.calls w next).
Proof.
  induction missing as [|li rest IH]; cbn; [tauto|]. rewrite IH. tauto.
Qed.

Lemma calls_each_zone (i : nat) (result : list Zone.t) (next : Domains.proc)
    (c : Domains.call) :
  Domains.is_output c = false ->
  (In c (Domains.calls w (each_zone i result next))
   <-> In c (map (fun zone => Domains.db_put (Zone.name zone) (Zone.id zone)) result)
       \/ In c (Domains.calls w next)).
Proof.
  intros Hc. unfold each_zone.
  revert i. induction result as [|zone rest IH]; intros i; cbn; [tauto|].
  assert (forall b out p,
            In c (Domains.calls w (Domains.when b (Domains.console_log out) p))
            <-> In c (Domains.calls w p)) as Hwhen.
  { intros [|] out p; cbn; [|tauto].
    split; [intros [<-|H]; [discriminate Hc | exact H] | now right]. }
  assert (In c (Domains.calls w
                  (Domains.put i (Zone.name zone) (Zone.id zone)
                     (Domains.act Domains.console_error Domains.stop)
                     (Domains.each_zone cwd path_join path_relative existsSync
                        configDir_name (S i) rest next)))
          <-> Domains.db_put (Zone.name zone) (Zone.id zone) = c
              \/ In c (map (fun zone => Domains.db_put (Zone.name zone) (Zone.id zone))
                         rest)
              \/ In c (Domains.calls w next)) as Hput.
  { cbn. rewrite in_app_iff, IH.
    destruct (Domains.put_rejected w i); cbn; [|tauto].
    split; [|tauto]. intros [H|[H|[<-|[]]]]; [tauto | tauto | discriminate Hc]. }
  split.
  - intros [<-|H]; [discriminate Hc|].
    destruct (Domains.findDescription cwd path_join path_relative existsSync
                (Zone.name zone) configDir_name) as [file|];
      [apply Hwhen in H|]; apply Hwhen in H; apply Hput in H; tauto.
  - intros H. right.
    destruct (Domains.findDescription cwd path_join path_relative existsSync
                (Zone.name zone) configDir_name) as [file|];
      [apply Hwhen|]; apply Hwhen; apply Hput; tauto.
Qed.

Lemma calls_zones_fetched (contents : list string) (c : Domains.call) :
  In c (Domains.calls w (zones_fetched contents (Domains.zones w))) ->
  Domains.is_output c = true \/ Domains.is_prompt c = true
  \/ c = Domains.db_close
  \/ (exists success result zone,
        Domains.zones w = Domains.replied success result
        /\ In zone result
        /\ c = Domains.db_put (Zone.name zone) (Zone.id zone))
  \/ asked_of_provider contents c.
Proof.
  unfold zones_fetched, Domains.zones_fetched, asked_of_provider,
    Domains.asked_of_provider.
  fold requested_for.
  destruct (Domains.zones w) as [[status|]|success result] eqn:Hzones; cbn;
    try (intros H; repeat (destruct H as [<-|H]; [now left|]); contradiction).
  destruct (Domains.is_output c) eqn:Hout; [now left|].
  intros [<-|H]; [discriminate Hout|].
  apply calls_each_zone in H; [|exact Hout].
  destruct H as [H|H].
  - apply in_map_iff in H. destruct H as (zone & <- & Hzone).
    do 3 right. left. now exists success, result, zone.
  - cbn in H. destruct H as [<-|H]; [do 2 right; now left|].
    set (missing := Domains.missing_descriptions contents (map Zone.name result)) in *.
    destruct (List.length missing); cbn in H; [contradiction|].
    destruct H as [<-|H]; [discriminate Hout|].
    apply calls_list_missing in H. destruct H as [H|H].
    { apply in_map_iff in H. destruct H as (li & <- & _). discriminate Hout. }
    cbn in H. destruct H as [<-|[<-|H]]; [discriminate Hout | right; now left |].
    destruct (Domains.answers w Domains.ask_confirmCreateIntent) eqn:Hyes;
      cbn in H; [|contradiction].
    destruct H as [<-|H].
    + do 4 right. exists success, result. repeat split. now left.
    + apply calls_accounts_fetched in H. destruct H as [H|[H|H]];
        [congruence | right; now left |].
      do 4 right. exists success, result. repeat split. now right.
Qed.

(** The calls of the last part of the callback are calls of the handler. *)
Lemma calls_after_listing (contents : list string) (success : bool)
    (result : list Zone.t) (c : Domains.call) :
  Domains.zones w = Domains.replied success result ->
  Domains.is_output c = false ->
  Domains.answers w Domains.ask_confirmCreateIntent = true ->
  Domains.missing_descriptions contents (map Zone.name result) <> [] ->
  In c (Domains.calls w
          (accounts_fetched (Domains.missing_descriptions contents (map Zone.name result))
             (Domains.accounts w))) ->
  In c (Domains.calls w (handler contents)).
Proof.
  intros Hzones Hout Hyes Hmissing Hin.
  unfold handler, Domains.handler. cbn [Domains.calls In app]. right.
  rewrite Hzones. unfold Domains.zones_fetched. cbn [Domains.calls In]. right.
  apply calls_each_zone; [exact Hout|]. right.
  cbn [Domains.calls In]. right.
  set (missing := Domains.missing_descriptions contents (map Zone.name result)) in *.
  assert ((0 <? List.length missing) = true) as ->.
  { destruct missing; [now elim Hmissing | reflexivity]. }
  cbn [Domains.calls In]. right. apply calls_list_missing. right.
  cbn [Domains.calls In app]. do 2 right. rewrite Hyes.
  cbn [Domains.calls In app]. right. exact Hin.
Qed.

Variable contents : list string.

Let trace :=
  Domains.calls w
    (Domains.handler cwd path_join path_relative existsSync load_redirects
       convertRedirectToPageRule configDir_name contents).

(** The calls of the handler that neither print nor prompt. *)
Lemma calls_handler (c : Domains.call) :
  In c trace ->
  Domains.is_output c = true \/ Domains.is_prompt c = true
  \/ c = Domains.axios_get "/zones"
  \/ c = Domains.db_close
  \/ (exists success result zone,
        Domains.zones w = Domains.replied success result
        /\ In zone result
        /\ c = Domains.db_put (Zone.name zone) (Zone.id zone))
  \/ Domains.asked_of_provider cwd path_join load_redirects convertRedirectToPageRule
       configDir_name w contents c.
Proof.
  unfold trace, Domains.handler. cbn [Domains.calls In app].
  intros [<-|H]; [do 2 right; now left|].
  apply calls_zones_fetched in H. tauto.
Qed.

(** Where a request to create a zone comes from. *)
Lemma zone_request_origin (name account_id : string) :
  In (Domains.axios_post_zones name account_id) trace ->
  exists success result account others k filename,
    Domains.zones w = Domains.replied success result
    /\ Domains.answers w Domains.ask_confirmCreateIntent = true
    /\ Domains.accounts w = Domains.replied true (account :: others)
    /\ account_id = Account.id account
    /\ nth_error (Domains.missing_descriptions contents (map Zone.name result)) k
       = Some filename
    /\ Domains.answers w (Domains.ask_confirmCreate k) = true
    /\ name = Domains.stem filename.
Proof.
  intros H. apply calls_handler in H.
  destruct H as [H|[H|[H|[H|[H|H]]]]]; try discriminate H.
  - destruct H as (? & ? & ? & _ & _ & H). discriminate H.
  - destruct H as (success & result & Hzones & Hyes & [H|H]); [discriminate H|].
    destruct H as (account & others & Haccounts & k & filename & Hk & Hconfirm & H).
    destruct H as [H|(? & ? & _ & _ & ? & ? & ? & _ & _ & _ & H)];
      [|discriminate H].
    injection H as -> ->.
    exists success, result, account, others, k, filename. now repeat split.
Qed.

(** X10: the handler asks the provider to create a zone exactly for the
    missing descriptions the user confirmed one by one, after the user
    agreed to create zones at all and the provider named an account; the
    zone gets the stem of the file name and goes to the first account. *)
Theorem zone_requested_iff_confirmed (name account_id : string) :
  In (Domains.axios_post_zones name account_id) trace
  <-> exists success result account others k filename,
        Domains.zones w = Domains.replied success result
        /\ Domains.answers w Domains.ask_confirmCreateIntent = true
        /\ Domains.accounts w = Domains.replied true (account :: others)
        /\ account_id = Account.id account
        /\ nth_error (Domains.missing_descriptions contents (map Zone.name result)) k
           = Some filename
        /\ Domains.answers w (Domains.ask_confirmCreate k) = true
        /\ name = Domains.stem filename.
Proof.
  split.
  - apply zone_request_origin.
  - intros (success & result & account & others & k & filename
            & Hzones & Hyes & Haccounts & -> & Hk & Hconfirm & ->).
    unfold trace. apply calls_after_listing with (success := success) (result := result);
      try assumption; try reflexivity.
    + intros E. rewrite E in Hk. now destruct k.
    + rewrite Haccounts. cbn [Domains.accounts_fetched Domains.calls In]. right.
      now apply each_missing_posts with (k := k).
Qed.

(** Where a request to post a Page Rule would come from, could the
    description be loaded and converted. *)
Lemma pagerule_post_origin (zone_id : string) (pagerule : PageRule.t) :
  In (Domains.axios_post_pagerules zone_id pagerule) trace ->
  exists success result k filename created redirects j redir,
    Domains.zones w = Domains.replied success result
    /\ nth_error (Domains.missing_descriptions contents (map Zone.name result)) k
       = Some filename
    /\ Domains.answers w Domains.ask_confirmCreateIntent = true
    /\ Domains.answers w (Domains.ask_confirmCreate k) = true
    /\ Domains.created_zone w k = Domains.replied true created
    /\ zone_id = Zone.id created
    /\ load_redirects (path_join [cwd; configDir_name; filename]) = Some redirects
    /\ nth_error redirects j = Some redir
    /\ convertRedirectToPageRule redir ("*" ++ Domains.stem filename)%string
       = Some pagerule
    /\ Domains.answers w (Domains.ask_proceed k j) = true.
Proof.
  intros H. apply calls_handler in H.
  destruct H as [H|[H|[H|[H|[H|H]]]]]; try discriminate H.
  - destruct H as (? & ? & ? & _ & _ & H). discriminate H.
  - destruct H as (success & result & Hzones & Hyes & [H|H]); [discriminate H|].
    destruct H as (account & others & Haccounts & k & filename & Hk & Hconfirm & H).
    destruct H as [H|H]; [discriminate H|].
    destruct H as (created & redirects & Hcreated & Hload & j & redir & rule
                   & Hj & Hconv & Hproceed & H).
    injection H as -> ->.
    exists success, result, k, filename, created, redirects, j, redir.
    now repeat split.
Qed.

(** X12: unless the user agrees to create the missing zones, the handler
    asks nothing of the provider but the list of zones. *)
Theorem no_request_without_consent (c : Domains.call) :
  Domains.answers w Domains.ask_confirmCreateIntent = false ->
  In c trace ->
  Domains.is_request c = true ->
  c = Domains.axios_get "/zones".
Proof.
  intros Hno H Hrequest. apply calls_handler in H.
  destruct H as [H|[H|[H|[H|[H|H]]]]].
  - destruct c; discriminate.
  - destruct c; discriminate.
  - exact H.
  - subst c. discriminate Hrequest.
  - destruct H as (? & ? & ? & _ & _ & ->). discriminate Hrequest.
  - destruct H as (? & ? & _ & Hyes & _). congruence.
Qed.

(** X13: the cache is written once per listed zone, name to id, and
    never otherwise. *)
Theorem cache_holds_the_listed_zones (key value : string) :
  In (Domains.db_put key value) trace
  <-> exists success result zone,
        Domains.zones w = Domains.replied success result
        /\ In zone result
        /\ key = Zone.name zone /\ value = Zone.id zone.
Proof.
  split.
  - intros H. apply calls_handler in H.
    destruct H as [H|[H|[H|[H|[H|H]]]]]; try discriminate H.
    + destruct H as (success & result & zone & Hzones & Hzone & H).
      injection H as -> ->. now exists success, result, zone.
    + destruct H as (? & ? & _ & _ & [H|H]); [discriminate H|].
      destruct H as (? & ? & _ & ? & ? & _ & _ & [H|H]); [discriminate H|].
      destruct H as (? & ? & _ & _ & ? & ? & ? & _ & _ & _ & H). discriminate H.
  - intros (success & result & zone & Hzones & Hzone & -> & ->).
    unfold trace, Domains.handler. cbn [Domains.calls In app]. right.
    rewrite Hzones. unfold Domains.zones_fetched. cbn [Domains.calls In]. right.
    apply calls_each_zone; [reflexivity|]. left.
    apply in_map_iff. now exists zone.
Qed.

(** X15: the handler never asks the provider to create a zone that the
    provider has just listed, nor one for a file whose name starts with a
    dot. *)
Theorem never_recreates_a_listed_zone
    (name account_id : string) (success : bool) (result : list Zone.t) :
  In (Domains.axios_post_zones name account_id) trace ->
  Domains.zones w = Domains.replied success result ->
  ~ In name (map Zone.name result)
  /\ exists filename,
       In filename contents
       /\ Domains.starts_with_dot filename = false
       /\ name = Domains.stem filename.
Proof.
  intros H Hzones. apply zone_request_origin in H.
  destruct H as (success' & result' & account & others & k & filename
                 & Hzones' & _ & _ & _ & Hk & _ & ->).
  rewrite Hzones in Hzones'. injection Hzones' as <- <-.
  apply nth_error_In in Hk. apply in_missing_descriptions in Hk.
  destruct Hk as (Hin & Hdot & Hno). split; [exact Hno|]. now exists filename.
Qed.

(** X14: when no description lacks its zone, the handler only lists: it
    prompts for nothing and asks nothing of the provider but the list of
    zones. *)
Theorem nothing_asked_when_nothing_is_missing
    (success : bool) (result : list Zone.t) (c : Domains.call) :
  Domains.zones w = Domains.replied success result ->
  Domains.missing_descriptions contents (map Zone.name result) = [] ->
  In c trace ->
  Domains.is_request c = true \/ Domains.is_prompt c = true ->
  c = Domains.axios_get "/zones".
Proof.
  intros Hzones Hmissing H Hkind.
  assert (Domains.is_output c = false) as Hout by (destruct c, Hkind; easy).
  unfold trace, Domains.handler in H. cbn [Domains.calls In app] in H.
  destruct H as [<-|H]; [reflexivity|].
  rewrite Hzones in H. unfold Domains.zones_fetched in H.
  cbn [Domains.calls In] in H.
  destruct H as [<-|H]; [discriminate Hout|].
  apply calls_each_zone in H; [|exact Hout].
  destruct H as [H|H].
  - apply in_map_iff in H. destruct H as (zone & <- & _). now destruct Hkind.
  - rewrite Hmissing in H. cbn in H.
    destruct H as [<-|[]]. now destruct Hkind.
Qed.

End DomainsRuns.

(** X11: as the sources have the command, no Page Rule is ever posted,
    whatever the provider replies and the user answers: the description of
    a newly created zone is loaded through a name that is not bound
    (line 281), which throws into the [catch] of line 308. *)
Theorem no_pagerule_is_ever_posted
    (cwd : string) (path_join : list string -> string)
    (path_relative : string -> string -> string) (existsSync : string -> bool)
    (configDir_name : string) (w : Domains.world) (contents : list string)
    (zone_id : string) (pagerule : PageRule.t) :
  ~ In (Domains.axios_post_pagerules zone_id pagerule)
       (Domains.calls w
          (Domains.as_written cwd path_join path_relative existsSync configDir_name
             contents)).
Proof.
  unfold Domains.as_written. intros H.
  apply pagerule_post_origin in H.
  destruct H as (? & ? & ? & ? & ? & ? & ? & ? & _ & _ & _ & _ & _ & _ & Hload & _).
  discriminate Hload.
Qed.

(** With everything confirmed and a provider that creates the zone, the
    run ends in the [catch]. *)
Lemma new_zone_gets_no_pagerule :
  Domains.calls Tour.yes (Tour.handler ["example.org.yaml"%string])
  = [Domains.axios_get "/zones";
     Domains.console_log (Domains.zones_heading 1);
     Domains.console_log (Domains.zone_summary Tour.example_com true);
     Domains.console_log
       (Domains.description_exists "/srv/redirects/example.com.json");
     Domains.db_put "example.com" "023e105f4ecef8ad9ca31a8372d0c353";
     Domains.db_close;
     Domains.console_log (Domains.missing_heading 1);
     Domains.console_log
       (Domains.missing_entry "example.org" "redirects/example.org.yaml");
     Domains.console_log Domains.blank;
     Domains.inquirer_prompt "confirmCreateIntent"
       "Are you ready to create the missing zones on Cloudflare?";
     Domains.axios_get "/accounts";
     Domains.console_log (Domains.adding_to "Example");
     Domains.inquirer_prompt "confirmCreate" "Add example.org to Example?";
     Domains.axios_post_zones "example.org" "01a7362d577a6c3019a474fd6f485823";
     Domains.console_log (Domains.zone_created "example.org" "pending");
     Domains.console_error].
Proof. reflexivity. Qed.

Lemma no_request_without_consent_witness :
  In (Domains.axios_get "/zones") (Domains.calls Tour.no (Tour.handler Tour.contents))
  /\ forall c,
       In c (Domains.calls Tour.no (Tour.handler Tour.contents)) ->
       Domains.is_request c = true ->
       c = Domains.axios_get "/zones".
Proof.
  split; [vm_compute; left; reflexivity|].
  intros c.
  apply (@no_request_without_consent
           "/srv" Tour.path_join (fun _ p => p) (fun _ => true)
           Tour.load_redirects Tour.convert "redirects" Tour.no Tour.contents c).
  reflexivity.
Defined.

Lemma nothing_asked_when_nothing_is_missing_witness :
  Domains.missing_descriptions [".gitignore"%string; "example.com.yaml"%string]
    (map Zone.name [Tour.example_com])
  = []
  /\ forall c,
       In c (Domains.calls Tour.yes
               (Tour.handler [".gitignore"%string; "example.com.yaml"%string])) ->
       Domains.is_request c = true \/ Domains.is_prompt c = true ->
       c = Domains.axios_get "/zones".
Proof.
  split; [reflexivity|].
  intros c.
  apply (@nothing_asked_when_nothing_is_missing
           "/srv" Tour.path_join (fun _ p => p) (fun _ => true)
           Tour.load_redirects Tour.convert "redirects" Tour.yes
           [".gitignore"%string; "example.com.yaml"%string]
           true [Tour.example_com] c).
  - reflexivity.
  - reflexivity.
Defined.

Lemma never_recreates_a_listed_zone_witness :
  In (Domains.axios_post_zones "example.org" (Account.id Tour.account))
     (Domains.calls Tour.yes (Tour.handler Tour.contents))
  /\ ~ In "example.org"%string (map Zone.name [Tour.example_com]).
Proof.
  assert (In (Domains.axios_post_zones "example.org" (Account.id Tour.account))
            (Domains.calls Tour.yes (Tour.handler Tour.contents))) as H.
  { vm_compute. do 13 right. left. reflexivity. }
  split; [exact H|].
  exact (proj1 (@never_recreates_a_listed_zone
                  "/srv" Tour.path_join (fun _ p => p) (fun _ => true)
                  Tour.load_redirects Tour.convert "redirects" Tour.yes Tour.contents
                  "example.org" (Account.id Tour.account) true [Tour.example_com]
                  H eq_refl)).
Defined.
